(** * Funeral-home survey charts and lobbying chart: model and properties

    A shallow embedding of [charts_and_grapsh.py] (Pipeline A) and
    [lobbying_chart.py] (Pipeline B).

    The two scripts are glue over pandas, seaborn and matplotlib.  The model
    keeps the scripts' own control flow and spells out the library calls they
    rely on:

    - a pandas [Series] is a dtype together with its values: [Int64],
      [Float64] (NaN is the missing value) or [Object], whose cells are text
      or NaN, which is what [read_csv] produces for a column that is not
      entirely numeric.  Boolean, datetime and categorical columns are left
      out; the survey and lobbying tables have none;
    - floats are IEEE binary64 values ([spec_float] at precision 53);
    - a Python [str] is held as its UTF-8 encoding, a [string] whose
      characters are the bytes, which is what a string literal of this file
      is; a character outside ASCII is a sequence of two to four bytes.
      The order of the encodings is the order of the code points, and a
      function of C that reads a [str] reads these bytes;
    - a [DataFrame] is a number of rows and a finite map from column names to
      [Series];
    - Python exceptions are the [Raise] outcome of the [result] monad;
    - the calls that draw on an axes are recorded, with their arguments, in
      the order they are made; console output and written files are the
      state of the [io] monad.  What seaborn and matplotlib do with a call is
      not modelled. *)

From Stdlib Require Import ZArith NArith Ascii String SpecFloat DecimalString.
From stdpp Require Import base option list sorting strings gmap fin_maps.

Local Open Scope Z_scope.

(** ** Exceptions *)

(** Each exception carries its message, the text [str(e)] gives. *)
Inductive exn :=
  | KeyError (key : string)
  | IndexError (msg : string)
  | ValueError (msg : string)
  | TypeError (msg : string)
  | FileNotFoundError (msg : string)
  (** Not a Python exception: the run leaves what the model covers. *)
  | Unmodelled (what : string).

Inductive result (A : Type) :=
  | Ok (a : A)
  | Raise (e : exn).
Arguments Ok {A} a.
Arguments Raise {A} e.

#[global] Instance result_ret : MRet result := fun _ a => Ok a.
#[global] Instance result_bind : MBind result := fun _ _ f m =>
  match m with
  | Ok a => f a
  | Raise e => Raise e
  end.

(** ** Binary64 floats *)

Module F64.

Definition prec : Z := 53.
Definition emax : Z := 1024.

Definition float := spec_float.

Definition nan : float := S754_nan.
Definition inf : float := S754_infinity false.

Definition isnan (f : float) : bool :=
  match f with S754_nan => true | _ => false end.

Definition isfinite (f : float) : bool :=
  match f with S754_zero _ | S754_finite _ _ _ => true | _ => false end.

(** [float(z)] for a Python int: round to nearest, ties to even. *)
Definition of_Z (z : Z) : float := binary_normalize prec emax z 0 false.

(** The binary64 value nearest to [(-1)^neg * m * 10^e], as the string to
    float conversion computes it. *)
Definition of_decimal (neg : bool) (m : N) (e : Z) : float :=
  match m with
  | N0 => S754_zero neg
  | Npos p =>
      if 0 <=? e then binary_round prec emax neg (p * Z.to_pos (10 ^ e)) 0
      else
        let '(q, e', l) :=
          SFdiv_core_binary prec emax (Zpos p) 0 (10 ^ (- e)) 0 in
        binary_round_aux prec emax neg q e' l
  end.

(** The integer nearest to a finite float, ties to even, as a sign and a
    magnitude (the sign survives rounding to zero). *)
Definition rint (f : float) : option (bool * N) :=
  match f with
  | S754_zero s => Some (s, 0%N)
  | S754_finite s m e =>
      if 0 <=? e then Some (s, Z.to_N (Zpos m * 2 ^ e))
      else
        let d := 2 ^ (- e) in
        let q := Zpos m / d in
        let r := Zpos m mod d in
        let up :=
          match 2 * r ?= d with
          | Lt => false
          | Eq => Z.odd q
          | Gt => true
          end in
        Some (s, Z.to_N (if up then q + 1 else q))
  | _ => None
  end.

(** The integer a float is equal to, when it is one. *)
Definition to_Z (f : float) : option Z :=
  match f with
  | S754_zero _ => Some 0
  | S754_finite s m e =>
      if 0 <=? e then Some (cond_Zopp s (Zpos m * 2 ^ e))
      else if Zpos m mod 2 ^ (- e) =? 0 then
        Some (cond_Zopp s (Zpos m / 2 ^ (- e)))
      else None
  | _ => None
  end.

Definition eqb : float -> float -> bool := SFeqb.
Definition ltb : float -> float -> bool := SFltb.
Definition leb : float -> float -> bool := SFleb.
Definition add : float -> float -> float := SFadd prec emax.
Definition mul : float -> float -> float := SFmul prec emax.
Definition div : float -> float -> float := SFdiv prec emax.
Definition opp : float -> float := SFopp.

Definition isinf (f : float) : bool :=
  match f with S754_infinity _ => true | _ => false end.

End F64.

Abbreviation float := F64.float.

(** ** Python [str] methods used by the scripts *)

Module Str.

Local Open Scope string_scope.

Definition code (c : ascii) : N := N_of_ascii c.

(** The characters for which [str.isspace] holds, each as its UTF-8 bytes:
    U+0009 to U+000D, U+001C to U+0020, U+0085, U+00A0, U+1680, U+2000 to
    U+200A, U+2028, U+2029, U+202F, U+205F and U+3000. *)
Definition whitespace : list string :=
  (((fun a => String a "")
      <$> ["009"; "010"; "011"; "012"; "013"; "028"; "029"; "030"; "031"; " "])
   ++ ((fun b => String "194" (String b "")) <$> ["133"; "160"])
   ++ [String "225" (String "154" (String "128" ""))]
   ++ ((fun c => String "226" (String "128" (String c "")))
         <$> ["128"; "129"; "130"; "131"; "132"; "133"; "134"; "135"; "136";
              "137"; "138"; "168"; "169"; "175"])
   ++ [String "226" (String "129" (String "159" ""));
       String "227" (String "128" (String "128" ""))])%char%list.

(** [ch.isspace()] for one character, given by its bytes. *)
Definition isspace (ch : string) : bool := bool_decide (ch ∈ whitespace).

(** [s.lstrip()]: a character is one to three bytes long when it is white
    space. *)
Fixpoint lstrip (s : string) : string :=
  match s with
  | String a r =>
      if isspace (String a "") then lstrip r
      else
        match r with
        | String b r2 =>
            if isspace (String a (String b "")) then lstrip r2
            else
              match r2 with
              | String c r3 =>
                  if isspace (String a (String b (String c ""))) then lstrip r3
                  else s
              | EmptyString => s
              end
        | EmptyString => s
        end
  | EmptyString => EmptyString
  end.

(** [s.rstrip()]: from the right, what is kept of the rest is dropped with
    the byte before it as long as the two make one white-space character. *)
Fixpoint rstrip (s : string) : string :=
  match s with
  | String c r =>
      let kept := String c (rstrip r) in
      if isspace kept then EmptyString else kept
  | EmptyString => EmptyString
  end.

(** [s.strip()] *)
Definition strip (s : string) : string := rstrip (lstrip s).

(** [re.sub('[...]', repl, s)] for a character class given by its
    members. *)
Fixpoint sub_class (cls : list ascii) (repl : string) (s : string) : string :=
  match s with
  | String c r =>
      if bool_decide (c ∈ cls) then repl ++ sub_class cls repl r
      else String c (sub_class cls repl r)
  | EmptyString => EmptyString
  end.

Definition lower_char (c : ascii) : ascii :=
  let n := code c in
  if ((65 <=? n) && (n <=? 90))%N then ascii_of_N (n + 32) else c.

Fixpoint lower (s : string) : string :=
  match s with
  | String c r => String (lower_char c) (lower r)
  | EmptyString => EmptyString
  end.

Definition digit (c : ascii) : option N :=
  let n := code c in
  if ((48 <=? n) && (n <=? 57))%N then Some (n - 48)%N else None.

(** Reads the longest run of decimal digits at the front of [s], continuing
    the number [acc]: returns the number, how many digits were read, and
    the rest. *)
Fixpoint digits (s : string) (acc : N) (n : nat) : N * nat * string :=
  match s with
  | String c r =>
      match digit c with
      | Some d => digits r (10 * acc + d)%N (S n)
      | None => (acc, n, s)
      end
  | EmptyString => (acc, n, s)
  end.

Definition sign (s : string) : bool * string :=
  match s with
  | String "-" r => (true, r)
  | String "+" r => (false, r)
  | _ => (false, s)
  end.

End Str.

(** ** Reading a number from text

    What [pandas.to_numeric] makes of one string of an object column, as
    [maybe_convert_numeric] does it: [floatify] reads the string as a float
    with the C function [precise_xstrtod], and when the string has neither a
    decimal point nor an exponent Python's [int] reads it as an integer. *)

(** The bytes a C function sees of a string: those before the first NUL. *)
Fixpoint c_str (s : string) : string :=
  match s with
  | String c r =>
      if bool_decide (c = "000"%char) then EmptyString else String c (c_str r)
  | EmptyString => EmptyString
  end.

(** [isspace_ascii]: space, tab, line feed, vertical tab, form feed and
    carriage return. *)
Definition isspace_ascii (c : ascii) : bool :=
  let n := Str.code c in
  ((n =? 32) || (9 <=? n) && (n <=? 13))%N.

Fixpoint skip_spaces (s : string) : string :=
  match s with
  | String c r => if isspace_ascii c then skip_spaces r else s
  | EmptyString => EmptyString
  end.

Fixpoint skip_digits (s : string) : string :=
  match s with
  | String c r =>
      match Str.digit c with
      | Some _ => skip_digits r
      | None => s
      end
  | EmptyString => EmptyString
  end.

(** [precise_xstrtod] keeps the first 17 digits of a literal. *)
Definition max_digits : nat := 17.

(** A C [int], which wraps around. *)
Definition wrap32 (z : Z) : Z := (z + 2 ^ 31) mod 2 ^ 32 - 2 ^ 31.

(** [number * 10. + d] for the digit [d], in double arithmetic. *)
Definition push_digit (number : float) (d : N) : float :=
  F64.add (F64.mul number (F64.of_Z 10)) (F64.of_Z (Z.of_N d)).

(** The digits before the decimal point: the first [max_digits] of them
    are taken into [number], each further one counts in [exponent]. *)
Fixpoint integer_digits (s : string) (number : float) (exponent : Z)
    (num_digits : nat) : float * Z * nat * string :=
  match s with
  | String c r =>
      match Str.digit c with
      | Some d =>
          if (num_digits <? max_digits)%nat then
            integer_digits r (push_digit number d) exponent (S num_digits)
          else integer_digits r number (wrap32 (exponent + 1)) num_digits
      | None => (number, exponent, num_digits, s)
      end
  | EmptyString => (number, exponent, num_digits, s)
  end.

(** The digits after the decimal point, as long as fewer than [max_digits]
    digits are taken. *)
Fixpoint decimal_digits (s : string) (number : float) (num_digits : nat)
    (num_decimals : Z) : float * nat * Z * string :=
  match s with
  | String c r =>
      match Str.digit c with
      | Some d =>
          if (num_digits <? max_digits)%nat then
            decimal_digits r (push_digit number d) (S num_digits)
              (num_decimals + 1)
          else (number, num_digits, num_decimals, s)
      | None => (number, num_digits, num_decimals, s)
      end
  | EmptyString => (number, num_digits, num_decimals, s)
  end.

(** The digits of the exponent, at most [max_digits] of them, as the C
    [int] [n]. *)
Fixpoint exponent_digits (s : string) (n : Z) (num_digits : nat)
  : Z * nat * string :=
  match s with
  | String c r =>
      match Str.digit c with
      | Some d =>
          if (num_digits <? max_digits)%nat then
            exponent_digits r (wrap32 (n * 10 + Z.of_N d)) (S num_digits)
          else (n, num_digits, s)
      | None => (n, num_digits, s)
      end
  | EmptyString => (n, num_digits, s)
  end.

(** The entry [e[k]] of the table of powers of ten: the double nearest to
    [10^k], for [k] from 0 to 308. *)
Definition e10 (k : Z) : float := F64.of_decimal false 1 k.

(** The end of [precise_xstrtod]: [number] times ten to the [exponent].
    [None] is the error [ERANGE]. *)
Definition scale (number : float) (exponent : Z) : option float :=
  if 308 <? exponent then None
  else
    let scaled :=
      if 0 <? exponent then F64.mul number (e10 exponent)
      else if exponent <? -308 then
        if exponent <? -616 then S754_zero false
        else F64.div (F64.div number (e10 (-308 - exponent))) (e10 308)
      else F64.div number (e10 (- exponent)) in
    if F64.isinf scaled then None else Some scaled.

(** [to_double(data, &value, 'E', '.', &maybe_int)]: [precise_xstrtod]
    with white space skipped at both ends, which succeeds when it meets no
    error and reads the whole string.  Returns the value and whether the
    literal had neither a decimal point nor an exponent. *)
Definition to_double (data : string) : option (float * bool) :=
  let '(negative, s1) := Str.sign (skip_spaces data) in
  let '(number, exponent, num_digits, s2) :=
    integer_digits s1 (S754_zero false) 0 0 in
  let '(number, exponent, num_digits, maybe_int, s3) :=
    match s2 with
    | String "." r =>
        let '(number, num_digits, num_decimals, s3) :=
          decimal_digits r number num_digits 0 in
        (number, wrap32 (exponent - num_decimals), num_digits, false,
         if (max_digits <=? num_digits)%nat then skip_digits s3 else s3)
    | _ => (number, exponent, num_digits, true, s2)
    end in
  match num_digits with
  | O => None
  | _ =>
      let number := if negative then F64.opp number else number in
      let after_exponent :=
        match s3 with
        | String c r =>
            if bool_decide (c = "e"%char \/ c = "E"%char) then
              let '(negative, r1) := Str.sign r in
              let '(n, num_digits, s4) := exponent_digits r1 0 0 in
              match num_digits with
              | O => None
              | _ =>
                  Some (wrap32 (if negative then exponent - n else exponent + n),
                        false, s4)
              end
            else Some (exponent, maybe_int, s3)
        | EmptyString => Some (exponent, maybe_int, s3)
        end in
      match after_exponent with
      | Some (exponent, maybe_int, s4) =>
          match scale number exponent, skip_spaces s4 with
          | Some value, EmptyString => Some (value, maybe_int)
          | _, _ => None
          end
      | None => None
      end
  end.

(** [floatify(val, &fval, &maybe_int)]: [to_double] on the bytes of the
    string and, when that fails, the spellings of infinity, in any case. *)
Definition floatify (val : string) : option (float * bool) :=
  let data := c_str val in
  match to_double data with
  | Some r => Some r
  | None =>
      let word := Str.lower data in
      if bool_decide (word ∈ ["inf"; "+inf"; "infinity"; "+infinity"]%string) then
        Some (S754_infinity false, false)
      else if bool_decide (word ∈ ["-inf"; "-infinity"]%string) then
        Some (S754_infinity true, false)
      else None
  end.

Definition signed (neg : bool) (n : N) : Z :=
  if neg then - Z.of_N n else Z.of_N n.

(** [int(val)] for a string of ASCII characters: an optional sign and
    digits, with white space allowed at both ends. *)
Definition py_int (val : string) : option Z :=
  let '(neg, body) := Str.sign (skip_spaces val) in
  match Str.digits body 0 0 with
  | (_, O, _) => None
  | (n, _, rest) =>
      match skip_spaces rest with
      | EmptyString => Some (signed neg n)
      | _ => None
      end
  end.

(** What is read from one string: an integer together with the float
    [floatify] read from the same string, a float, or a failure (a
    [ValueError]). *)
Inductive parsed :=
  | PInt (z : Z) (f : float)
  | PFloat (f : float)
  | PFail.

Definition parse_number (val : string) : parsed :=
  match floatify val with
  | Some (fval, true) =>
      match py_int val with
      | Some as_int => PInt as_int fval
      | None => PFail
      end
  | Some (fval, false) => PFloat fval
  | None => PFail
  end.

(** ** pandas columns *)

(** A cell of an object column as [read_csv] builds it: text, or NaN where
    the field was empty. *)
Inductive cell :=
  | Text (s : string)
  | NA.

Inductive Series :=
  | Int64 (xs : list Z)
  | UInt64 (xs : list Z)
  | Float64 (xs : list float)
  | Object (xs : list cell).

(** A Python value taken out of a column. *)
Inductive scalar :=
  | PyInt (z : Z)
  | PyFloat (f : float)
  | PyStr (s : string).

#[global] Instance cell_eq_dec : EqDecision cell.
Proof. solve_decision. Defined.
#[global] Instance float_eq_dec : EqDecision spec_float.
Proof. solve_decision. Defined.
#[global] Instance parsed_eq_dec : EqDecision parsed.
Proof. solve_decision. Defined.
#[global] Instance scalar_eq_dec : EqDecision scalar.
Proof. solve_decision. Defined.

Definition cell_value (c : cell) : scalar :=
  match c with
  | Text s => PyStr s
  | NA => PyFloat F64.nan
  end.

(** [series.tolist()] *)
Definition tolist (s : Series) : list scalar :=
  match s with
  | Int64 xs | UInt64 xs => PyInt <$> xs
  | Float64 xs => PyFloat <$> xs
  | Object xs => cell_value <$> xs
  end.

(** [len(series)] *)
Definition len (s : Series) : nat :=
  match s with
  | Int64 xs | UInt64 xs => length xs
  | Float64 xs => length xs
  | Object xs => length xs
  end.

(** [pd.isna(v)]: the missing-value sentinel is the float NaN. *)
Definition isna (v : scalar) : bool :=
  match v with
  | PyFloat f => F64.isnan f
  | _ => false
  end.

(** [pd.api.types.is_numeric_dtype(series)] *)
Definition is_numeric_dtype (s : Series) : bool :=
  match s with
  | Int64 _ | UInt64 _ | Float64 _ => true
  | Object _ => false
  end.

(** The decimal digits of a natural number. *)
Definition decimal (n : N) : string := NilEmpty.string_of_uint (N.to_uint n).

(** [str(z)] for an int. *)
Definition str_int (z : Z) : string :=
  match z with
  | Zneg p => "-" +:+ decimal (Npos p)
  | _ => decimal (Z.to_N z)
  end.

(** [str(c)] for a cell of an object column; [str(float('nan'))] is
    ['nan']. *)
Definition str_cell (c : cell) : string :=
  match c with
  | Text s => s
  | NA => "nan"
  end.

(** [series.astype(str)].  The text of a float is outside the model; the
    scripts never ask for it. *)
Definition astype_str (s : Series) : result (list string) :=
  match s with
  | Object xs => Ok (str_cell <$> xs)
  | Int64 zs | UInt64 zs => Ok (str_int <$> zs)
  | Float64 _ => Raise (Unmodelled "str of a float")
  end.

(** [.str.replace('[...]', repl, regex=True)] for a character class. *)
Definition str_replace (cls : list ascii) (repl : string) (ss : list string)
  : list string :=
  Str.sub_class cls repl <$> ss.

(** [.str.strip()] *)
Definition str_strip (ss : list string) : list string := Str.strip <$> ss.

(** [.replace(to_replace, np.nan)] for a list of strings to replace. *)
Definition replace (to_replace : list string) (ss : list string) : list cell :=
  (fun s => if bool_decide (s ∈ to_replace) then NA else Text s) <$> ss.

(** *** [pd.to_numeric] *)

Inductive errors_mode := errors_raise | errors_coerce.

#[global] Instance errors_mode_eq_dec : EqDecision errors_mode.
Proof. solve_decision. Defined.

Definition parse_cell (c : cell) : parsed :=
  match c with
  | Text s => parse_number s
  | NA => PFloat F64.nan
  end.

Definition int64_min : Z := - 2 ^ 63.
Definition int64_max : Z := 2 ^ 63 - 1.
Definition uint64_max : Z := 2 ^ 64 - 1.

(** The integer read from a cell, when it is one a 64-bit column can
    hold. *)
Definition as_int (p : parsed) : option Z :=
  match p with
  | PInt z _ => if bool_decide (int64_min ≤ z ≤ uint64_max) then Some z else None
  | _ => None
  end.

(** The float stored for a cell in a float64 column: for an integer it is
    the float read from the same string, for a failure NaN. *)
Definition as_float64 (p : parsed) : float :=
  match p with
  | PInt _ f => f
  | PFloat f => f
  | PFail => F64.nan
  end.

(** The error a cell is with [errors='raise']. *)
Definition error_of (p : parsed) : option exn :=
  match p with
  | PFail => Some (ValueError "Unable to parse string")
  | PInt z _ =>
      if bool_decide (int64_min ≤ z ≤ uint64_max) then None
      else Some (ValueError "Integer out of range.")
  | PFloat _ => None
  end.

(** An integer above the int64 range, a negative integer, a missing
    value. *)
Definition above_int64 (p : parsed) : bool :=
  match p with
  | PInt z _ => bool_decide (int64_max < z ≤ uint64_max)
  | _ => false
  end.

Definition negative (p : parsed) : bool :=
  match p with
  | PInt z _ => bool_decide (int64_min ≤ z < 0)
  | _ => false
  end.

Definition missing (p : parsed) : bool :=
  match p with
  | PFloat f => F64.isnan f
  | PFail => true
  | PInt _ _ => false
  end.

(** [pd.to_numeric(cells, errors=...)] on the cells of an object column.
    With [errors='raise'] a string that is not a number, or an integer
    outside the 64-bit range, raises; with [errors='coerce'] the first
    becomes NaN and the second is kept as the float read from it.  The result
    is an int64 column when every cell is an integer of the int64 range, a
    uint64 column when every cell is an integer from 0 to 2^64 - 1 and one
    is above the int64 range, and a float64 column otherwise; with
    [errors='raise'] a column that has an integer above the int64 range
    beside a negative one or a missing value is returned as it is. *)
Definition to_numeric (xs : list cell) (errors : errors_mode) : result Series :=
  let ps := parse_cell <$> xs in
  let raising := bool_decide (errors = errors_raise) in
  match (if raising then omap error_of ps else []) with
  | e :: _ => Raise e
  | [] =>
      let uint := existsb above_int64 ps in
      let sint := existsb negative ps in
      let null := existsb missing ps in
      if raising && uint && (null || sint) then Ok (Object xs)
      else
        match mapM as_int ps with
        | Some zs =>
            if uint && sint then Ok (Float64 (as_float64 <$> ps))
            else if uint then Ok (UInt64 zs)
            else Ok (Int64 zs)
        | None => Ok (Float64 (as_float64 <$> ps))
        end
  end.

(** A value that is a finite number or the missing-value sentinel. *)
Definition finite_or_missing (v : scalar) : bool :=
  match v with
  | PyInt _ => true
  | PyFloat f => F64.isfinite f || F64.isnan f
  | PyStr _ => false
  end.

(** [float(v)] for a number. *)
Definition py_float (v : scalar) : option float :=
  match v with
  | PyInt z => Some (F64.of_Z z)
  | PyFloat f => Some f
  | PyStr _ => None
  end.

(** The number held at position [i] of a column, read as a float. *)
Definition number_at (s : Series) (i : nat) : option float :=
  tolist s !! i ≫= py_float.

(** How [to_numeric] stores what it read from a cell: an integer stays an
    integer in an int64 or uint64 column, a float64 column holds the float
    read from the cell, and a text that is not a number is stored as NaN. *)
Definition stored_as (p : parsed) (v : scalar) : Prop :=
  match v with
  | PyInt z => exists f, p = PInt z f
  | PyFloat f => f = as_float64 p
  | PyStr _ => False
  end.

(** ** Python comparisons and built-ins *)

(** [a == b] *)
Definition py_eq (a b : scalar) : bool :=
  match a, b with
  | PyStr x, PyStr y => bool_decide (x = y)
  | PyInt x, PyInt y => bool_decide (x = y)
  | PyFloat x, PyFloat y => F64.eqb x y
  | PyInt x, PyFloat y | PyFloat y, PyInt x => bool_decide (F64.to_Z y = Some x)
  | _, _ => false
  end.

(** [a < b] between two numbers or between two strings (code point order).
    Python raises [TypeError] for a string against a number; [sorted] below
    checks for that case before it compares. *)
Definition py_lt (a b : scalar) : bool :=
  match a, b with
  | PyStr x, PyStr y => String.ltb x y
  | PyInt x, PyInt y => bool_decide (x < y)
  | PyFloat x, PyFloat y => F64.ltb x y
  | PyInt x, PyFloat y => F64.ltb (F64.of_Z x) y
  | PyFloat x, PyInt y => F64.ltb x (F64.of_Z y)
  | _, _ => false
  end.

(** [a >= b] and [a <= b] *)
Definition py_ge (a b : scalar) : bool := py_lt b a || py_eq a b.
Definition py_leq (a b : scalar) : bool := py_lt a b || py_eq a b.

(** "[b] is not less than [a]": the test under which a merge takes its left
    element. *)
Definition py_le (a b : scalar) : Prop := py_lt b a = false.

#[global] Instance py_le_dec : RelDecision py_le.
Proof. intros a b. unfold py_le. apply _. Defined.

Definition is_str (v : scalar) : bool :=
  match v with PyStr _ => true | _ => false end.

(** [sorted(l)]: a stable merge sort on [<]; a list that mixes strings and
    numbers cannot be ordered. *)
Definition sorted (l : list scalar) : result (list scalar) :=
  if forallb is_str l || forallb (negb ∘ is_str) l then Ok (merge_sort py_le l)
  else Raise (TypeError "'<' not supported between instances of 'str' and a number").

(** [', '.join] of the digits of [n] in groups of three, from the right. *)
Fixpoint group3 (rev_digits : list ascii) (k : nat) : list ascii :=
  match rev_digits with
  | [] => []
  | d :: r =>
      match k with
      | 3%nat => "," :: d :: group3 r 1
      | _ => d :: group3 r (S k)
      end
  end%char.

Definition with_commas (n : N) : string :=
  string_of_list_ascii
    (rev (group3 (rev (list_ascii_of_string (decimal n))) 0)).

(** [format(f, ',.0f')] for a float. *)
Definition format_float_0f (f : float) : string :=
  match F64.rint f with
  | Some (s, n) => ((if s then "-" else "") ++ with_commas n)%string
  | None =>
      match f with
      | S754_infinity true => "-inf"
      | S754_infinity false => "inf"
      | _ => "nan"
      end%string
  end.

(** [format(v, ',.0f')]: an int is converted to a float first; the format
    code is not defined for a string. *)
Definition format_0f (v : scalar) : result string :=
  match v with
  | PyFloat f => Ok (format_float_0f f)
  | PyInt z => Ok (format_float_0f (F64.of_Z z))
  | PyStr _ => Raise (ValueError "Unknown format code 'f' for object of type 'str'")
  end.

(** ** Column statistics *)

(** [series.unique()]: the distinct values in order of first appearance. *)
Fixpoint unique (l : list scalar) : list scalar :=
  match l with
  | [] => []
  | x :: l' => x :: filter (fun y => py_eq x y = false) (unique l')
  end.

(** [series.nunique()]: missing values are not counted. *)
Definition nunique (s : Series) : nat :=
  length (unique (filter (fun v => isna v = false) (tolist s))).

(** [series.empty] *)
Definition empty (s : Series) : bool := bool_decide (len s = 0%nat).

(** [series.iloc[0]] *)
Definition iloc0 (s : Series) : result scalar :=
  match tolist s with
  | v :: _ => Ok v
  | [] => Raise (IndexError "single positional indexer is out-of-bounds")
  end.

(** The numbers of a column as floats, missing values skipped; a column of
    text has none. *)
Definition numbers (s : Series) : result (list float) :=
  match s with
  | Int64 xs | UInt64 xs => Ok (F64.of_Z <$> xs)
  | Float64 xs => Ok (filter (fun f => F64.isnan f = false) xs)
  | Object xs =>
      match filter (fun c => c ≠ NA) xs with
      | [] => Ok []
      | _ => Raise (TypeError "could not convert string to float")
      end
  end.

Definition fle (a b : float) : Prop := F64.ltb b a = false.

#[global] Instance fle_dec : RelDecision fle.
Proof. intros a b. unfold fle. apply _. Defined.

(** [series.median()]: the middle of the sorted numbers, or the mean of the
    two middle ones; NaN for no numbers. *)
Definition median (s : Series) : result scalar :=
  fs ← numbers s;
  let sorted_fs := merge_sort fle fs in
  let n := length fs in
  let h := (n / 2)%nat in
  Ok (PyFloat
        (if Nat.even n then
           match sorted_fs !! (h - 1)%nat, sorted_fs !! h with
           | Some a, Some b => F64.div (F64.add a b) (F64.of_Z 2)
           | _, _ => F64.nan
           end
         else default F64.nan (sorted_fs !! h))).

(** The least element of a non-empty list for [lt]. *)
Definition least {A} (lt : A -> A -> bool) (x : A) (l : list A) : A :=
  foldl (fun m y => if lt y m then y else m) x l.

(** [series.min()] and [series.max()], missing values skipped; NaN for an
    empty column. *)
Definition extremum (less : scalar -> scalar -> bool) (s : Series) : scalar :=
  match filter (fun v => isna v = false) (tolist s) with
  | [] => PyFloat F64.nan
  | v :: l => least less v l
  end.

Definition min (s : Series) : scalar := extremum py_lt s.
Definition max (s : Series) : scalar := extremum (fun a b => py_lt b a) s.

(** [repr(s)] for a string without quotes in it. *)
Definition repr_str (s : string) : string := "'" +:+ s +:+ "'".

(** [repr(l)] for a list of strings. *)
Fixpoint join_reprs (l : list string) : string :=
  match l with
  | [] => ""
  | [c] => repr_str c
  | c :: r => repr_str c +:+ ", " +:+ join_reprs r
  end.

Definition repr_list (l : list string) : string := "[" +:+ join_reprs l +:+ "]".

(** [str(e)] *)
Definition exn_str (e : exn) : string :=
  match e with
  | KeyError msg | IndexError msg | ValueError msg | TypeError msg
  | FileNotFoundError msg | Unmodelled msg => msg
  end.

(** ** Data frames *)

(** A table: its number of rows and its columns by name.  In a well-formed
    table every column has [nrows] entries. *)
Record DataFrame := {
  nrows : nat;
  columns : gmap string Series
}.

#[global] Instance dataframe_lookup : Lookup string Series DataFrame :=
  fun c df => columns df !! c.

Definition well_formed (df : DataFrame) : Prop :=
  map_Forall (fun _ s => len s = nrows df) (columns df).

#[global] Instance well_formed_dec df : Decision (well_formed df).
Proof. unfold well_formed. apply _. Defined.

(** [df[col]] *)
Definition getitem (df : DataFrame) (col : string) : result Series :=
  match df !! col with
  | Some s => Ok s
  | None => Raise (KeyError (repr_str col))
  end.

(** [df[col] = s] *)
Definition setitem (df : DataFrame) (col : string) (s : Series) : DataFrame :=
  {| nrows := nrows df; columns := <[col := s]> (columns df) |}.

(** [df.empty] *)
Definition df_empty (df : DataFrame) : bool :=
  bool_decide (nrows df = 0%nat ∨ columns df = ∅).

(** The rows of a column at the positions [idx], in that order. *)
Definition take (idx : list nat) (s : Series) : Series :=
  match s with
  | Int64 xs => Int64 (omap (fun i => xs !! i) idx)
  | UInt64 xs => UInt64 (omap (fun i => xs !! i) idx)
  | Float64 xs => Float64 (omap (fun i => xs !! i) idx)
  | Object xs => Object (omap (fun i => xs !! i) idx)
  end.

(** [df.iloc[idx]] *)
Definition df_take (idx : list nat) (df : DataFrame) : DataFrame :=
  {| nrows := length idx; columns := take idx <$> columns df |}.

(** The positions at which a condition on the rows holds. *)
Definition where_ (n : nat) (cond : nat -> bool) : list nat :=
  filter (fun i => cond i = true) (seq 0 n).

(** [df[mask]] for a boolean mask given as a condition on the position. *)
Definition df_where (df : DataFrame) (cond : nat -> bool) : DataFrame :=
  df_take (where_ (nrows df) cond) df.

(** Whether row [i] of a column holds a value. *)
Definition notna_at (s : Series) (i : nat) : bool :=
  match tolist s !! i with
  | Some v => negb (isna v)
  | None => false
  end.

(** [series == v], at row [i]. *)
Definition eq_at (s : Series) (v : scalar) (i : nat) : bool :=
  match tolist s !! i with
  | Some w => py_eq w v
  | None => false
  end.

(** Whether row [i] holds a value in every listed column. *)
Definition holds_all (subset : list string) (df : DataFrame) (i : nat) : bool :=
  forallb (fun c => from_option (fun s => notna_at s i) true (df !! c)) subset.

(** [df.dropna(subset=cols)]: the rows that hold a value in every listed
    column; a listed column that the table does not have is a [KeyError]. *)
Definition dropna (subset : list string) (df : DataFrame) : result DataFrame :=
  match filter (fun c => df !! c = None) subset with
  | [] => Ok (df_where df (holds_all subset df))
  | missing => Raise (KeyError (repr_list missing))
  end.

(** ** Drawing and console effects *)

Inductive valign := va_bottom | va_top.

(** The calls a chart makes on its axes. *)
Inductive call :=
  (** [ax.text(0.5, 0.5, s, ha='center', va='center')] *)
  | text_center (s : string)
  (** [sns.violinplot(data=data, x=x, y=y, ax=ax, order=order, ...)] *)
  | violinplot (data : DataFrame) (x y : string) (order : list scalar)
  (** [sns.swarmplot(data=data, x=x, y=y, ax=ax, order=order, ...)] *)
  | swarmplot (data : DataFrame) (x y : string) (order : list scalar)
  (** [sns.scatterplot(data=data, x=x, y=y, hue=hue, ax=ax, ...)] *)
  | scatterplot (data : DataFrame) (x y hue : string)
  (** [sns.regplot(data=data, x=x, y=y, ax=ax, scatter=False, ...)] *)
  | regplot (data : DataFrame) (x y : string)
  (** [sns.histplot(data=data, x=x, bins=25, ax=ax, kde=True, ...)] *)
  | histplot (data : DataFrame) (x : string)
  (** [ax.plot([i - 0.2, i + 0.2], [m, m], color='black', lw=2)] *)
  | median_tick (i : nat) (m : scalar)
  (** [ax.annotate(s, xy=xy, xytext=xytext, textcoords="offset points",
      ha='center', va=va, fontsize=9, fontweight=..., color=color)] *)
  | annotate (s : string) (xy : nat * scalar) (xytext : Z * Z) (va : valign)
      (bold : bool) (color : string)
  | set_title (s : string)
  | set_xlabel (s : string)
  | set_ylabel (s : string)
  (** [ax.legend(title=s)] *)
  | legend (s : string).

(** The calls of the annotation loop: the median tick and the text
    annotations. *)
Definition is_annotation (c : call) : bool :=
  match c with
  | median_tick _ _ | annotate _ _ _ _ _ _ => true
  | _ => false
  end.

(** What a run leaves behind: the lines printed, and the image files written
    with the calls that drew them, both oldest first. *)
Record world := {
  stdout : list string;
  files : list (string * list call)
}.

(** Computations that print, write files, and may raise. *)
Definition io (A : Type) : Type := world -> result A * world.

#[global] Instance io_ret : MRet io := fun _ a w => (Ok a, w).
#[global] Instance io_bind : MBind io := fun _ _ f m w =>
  match m w with
  | (Ok a, w') => f a w'
  | (Raise e, w') => (Raise e, w')
  end.

Definition lift {A} (r : result A) : io A := fun w => (r, w).

(** [print(line)] *)
Definition print (line : string) : io unit := fun w =>
  (Ok (), {| stdout := stdout w ++ [line]; files := files w |}).

(** [fig.savefig(name)] for a figure drawn by [calls]. *)
Definition savefig (name : string) (calls : list call) : io unit := fun w =>
  (Ok (), {| stdout := stdout w; files := files w ++ [(name, calls)] |}).

(** [try: body except e: handler(e)] *)
Definition try_except (body : io unit) (handler : exn -> io unit) : io unit :=
  fun w =>
    match body w with
    | (Ok (), w') => (Ok (), w')
    | (Raise e, w') => handler e w'
    end.

(** ** Pipeline A: [charts_and_grapsh.py] *)

Module Charts.

(** [clean_and_convert_to_numeric(series)] *)
Definition clean_and_convert_to_numeric (series : Series) : result Series :=
  if is_numeric_dtype series then Ok series
  else
    strings ← astype_str series;
    let cleaned :=
      replace [""; "N/A"; "nan"]
        (str_strip (str_replace ["$"; ","; "%"]%char "" strings)) in
    to_numeric cleaned errors_coerce.

(** What the string stages of [clean_and_convert_to_numeric] hand to
    [to_numeric] for one cell: steps (b) to (e) on that cell. *)
Definition prepared (c : cell) : cell :=
  let s := Str.strip (Str.sub_class ["$"; ","; "%"]%char "" (str_cell c)) in
  if bool_decide (s ∈ [""; "N/A"; "nan"]%string) then NA else Text s.

(** The annotations of one category of [create_hybrid_plot]: the body of
    its loop over [enumerate(category_order)]. *)
Definition annotate_category (plot_df : DataFrame)
    (value_col category_col : string) (i : nat) (cat : scalar)
  : result (list call) :=
  labels ← getitem plot_df category_col;
  cat_data ← getitem (df_where plot_df (eq_at labels cat)) value_col;
  if empty cat_data then Ok []
  else if py_eq cat (PyStr "FPG Beers & Story")
          && bool_decide (nunique cat_data = 1%nat) then
    single_val ← iloc0 cat_data;
    label ← format_0f single_val;
    Ok [annotate ("$" +:+ label) (i, single_val) (0, 5) va_bottom true "black"]
  else
    median_val ← median cat_data;
    let min_val := min cat_data in
    let max_val := max cat_data in
    median_label ← format_0f median_val;
    max_label ← format_0f max_val;
    min_label ← format_0f min_val;
    Ok [median_tick i median_val;
        annotate ("Median: $" +:+ median_label) (i, median_val) (0, 5)
          va_bottom true "black";
        annotate ("$" +:+ max_label) (i, max_val) (0, 5)
          va_bottom false "firebrick";
        annotate ("$" +:+ min_label) (i, min_val) (0, -12)
          va_top false "darkgreen"].

(** [for i, cat in enumerate(category_order): ...], counting from [i]. *)
Fixpoint annotate_categories (plot_df : DataFrame)
    (value_col category_col : string) (i : nat) (category_order : list scalar)
  : result (list call) :=
  match category_order with
  | [] => Ok []
  | cat :: rest =>
      here ← annotate_category plot_df value_col category_col i cat;
      later ← annotate_categories plot_df value_col category_col (S i) rest;
      Ok (here ++ later)
  end.

(** [create_hybrid_plot(df, value_col, category_col, ax, title, ylabel)]:
    the calls made on [ax] when the function returns.  ([or] looks at the
    category column only when the table has rows.) *)
Definition create_hybrid_plot (df : DataFrame)
    (value_col category_col title ylabel : string) : result (list call) :=
  plot_df ← dropna [value_col; category_col] df;
  no_data ←
    (if df_empty plot_df then Ok true
     else
       labels ← getitem plot_df category_col;
       Ok (bool_decide (nunique labels = 0%nat)));
  if (no_data : bool) then
    Ok [text_center ("No data available for " +:+ title)]
  else
    labels ← getitem plot_df category_col;
    category_order ← sorted (unique (tolist labels));
    let independent_df := df_where plot_df (eq_at labels (PyStr "Independent")) in
    let violin :=
      if negb (df_empty independent_df) then
        [violinplot independent_df category_col value_col category_order]
      else [] in
    let swarm := [swarmplot plot_df category_col value_col category_order] in
    annotations ←
      annotate_categories plot_df value_col category_col 0 category_order;
    Ok (violin ++ swarm ++ annotations
          ++ [set_title title; set_xlabel category_col; set_ylabel ylabel]).

(** *** The annotation loop without its guard

    [create_hybrid_plot] with the two lines [if cat_data.empty: continue]
    taken out of its loop, and nothing else changed: what the function is
    compared with to say that the guard never decides. *)

Definition annotate_category_without_guard (plot_df : DataFrame)
    (value_col category_col : string) (i : nat) (cat : scalar)
  : result (list call) :=
  labels ← getitem plot_df category_col;
  cat_data ← getitem (df_where plot_df (eq_at labels cat)) value_col;
  if py_eq cat (PyStr "FPG Beers & Story")
     && bool_decide (nunique cat_data = 1%nat) then
    single_val ← iloc0 cat_data;
    label ← format_0f single_val;
    Ok [annotate ("$" +:+ label) (i, single_val) (0, 5) va_bottom true "black"]
  else
    median_val ← median cat_data;
    let min_val := min cat_data in
    let max_val := max cat_data in
    median_label ← format_0f median_val;
    max_label ← format_0f max_val;
    min_label ← format_0f min_val;
    Ok [median_tick i median_val;
        annotate ("Median: $" +:+ median_label) (i, median_val) (0, 5)
          va_bottom true "black";
        annotate ("$" +:+ max_label) (i, max_val) (0, 5)
          va_bottom false "firebrick";
        annotate ("$" +:+ min_label) (i, min_val) (0, -12)
          va_top false "darkgreen"].

Fixpoint annotate_categories_without_guard (plot_df : DataFrame)
    (value_col category_col : string) (i : nat) (category_order : list scalar)
  : result (list call) :=
  match category_order with
  | [] => Ok []
  | cat :: rest =>
      here ← annotate_category_without_guard plot_df value_col category_col i cat;
      later ← annotate_categories_without_guard plot_df value_col category_col
                (S i) rest;
      Ok (here ++ later)
  end.

Definition create_hybrid_plot_without_guard (df : DataFrame)
    (value_col category_col title ylabel : string) : result (list call) :=
  plot_df ← dropna [value_col; category_col] df;
  no_data ←
    (if df_empty plot_df then Ok true
     else
       labels ← getitem plot_df category_col;
       Ok (bool_decide (nunique labels = 0%nat)));
  if (no_data : bool) then
    Ok [text_center ("No data available for " +:+ title)]
  else
    labels ← getitem plot_df category_col;
    category_order ← sorted (unique (tolist labels));
    let independent_df := df_where plot_df (eq_at labels (PyStr "Independent")) in
    let violin :=
      if negb (df_empty independent_df) then
        [violinplot independent_df category_col value_col category_order]
      else [] in
    let swarm := [swarmplot plot_df category_col value_col category_order] in
    annotations ←
      annotate_categories_without_guard plot_df value_col category_col 0
        category_order;
    Ok (violin ++ swarm ++ annotations
          ++ [set_title title; set_xlabel category_col; set_ylabel ylabel]).

(** The annotations a category with data is to receive at position [i] of
    the x axis: for the label "FPG Beers & Story" with a single distinct
    value, that value as currency above its point; in every other case the
    median tick with its label, the maximum above its point and the minimum
    below its point. *)
Definition category_group (cat_data : Series) (i : nat) (t : string)
    (group : list call) : Prop :=
  exists single_val median_val single_label median_label max_label min_label,
    iloc0 cat_data = Ok single_val /\
    format_0f single_val = Ok single_label /\
    median cat_data = Ok median_val /\
    format_0f median_val = Ok median_label /\
    format_0f (max cat_data) = Ok max_label /\
    format_0f (min cat_data) = Ok min_label /\
    group =
      if bool_decide (t = "FPG Beers & Story" /\ nunique cat_data = 1%nat) then
        [annotate ("$" +:+ single_label) (i, single_val) (0, 5)
           va_bottom true "black"]
      else
        [median_tick i median_val;
         annotate ("Median: $" +:+ median_label) (i, median_val) (0, 5)
           va_bottom true "black";
         annotate ("$" +:+ max_label) (i, max cat_data) (0, 5)
           va_bottom false "firebrick";
         annotate ("$" +:+ min_label) (i, min cat_data) (0, -12)
           va_top false "darkgreen"].

(** [df[col].str.strip()] on an object column; the columns of other dtypes
    are not touched by the loop over [select_dtypes(include=['object'])]. *)
Definition strip_column (s : Series) : Series :=
  match s with
  | Object xs =>
      Object ((fun c => match c with Text t => Text (Str.strip t) | NA => NA end)
                <$> xs)
  | _ => s
  end.

Definition strip_object_columns (df : DataFrame) : DataFrame :=
  {| nrows := nrows df; columns := strip_column <$> columns df |}.

Definition cols_to_clean : list string :=
  ["Latitude"; "Longitude"; "BasicServicesFee";
   "DirectCremationLowestPrice"; "DirectCremation_Pct_Change";
   "ImmediateBurialLowestPrice"].

(** [f"Warning: Column '{col}' not found in the CSV file."] *)
Definition warning (col : string) : string :=
  "Warning: Column '" +:+ col +:+ "' not found in the CSV file.".

(** [f'{col}_cleaned'] *)
Definition cleaned_name (col : string) : string := col +:+ "_cleaned".

(** [for col in cols: ...]: the cleaning loop of [main]. *)
Fixpoint clean_columns (cols : list string) (df : DataFrame) : io DataFrame :=
  match cols with
  | [] => mret df
  | col :: rest =>
      df ←
        match df !! col with
        | Some series =>
            cleaned ← lift (clean_and_convert_to_numeric series);
            mret (setitem df (cleaned_name col) cleaned)
        | None => print (warning col);; mret df
        end;
      clean_columns rest df
  end.

(** Drawing a chart and saving it under its file name: the end of each
    visualization block, [fig.savefig(name)]. *)
Definition save_chart (chart : string * result (list call)) : io unit :=
  calls ← lift chart.2;
  savefig chart.1 calls.

(** Visualization 1: geographic distribution. *)
Definition visualization1 (df : DataFrame) : string * result (list call) :=
  ("geographic_distribution.png",
   plot_df1 ← dropna ["Latitude_cleaned"; "Longitude_cleaned"; "Ownership"] df;
   Ok (if negb (df_empty plot_df1) then
         [scatterplot plot_df1 "Longitude_cleaned" "Latitude_cleaned" "Ownership";
          set_title "Geographic Distribution of Funeral Homes by Ownership";
          set_xlabel "Longitude"; set_ylabel "Latitude"; legend "Ownership"]
       else [text_center "No data for Geographic Distribution plot."])).

(** Visualization 2: direct cremation price histogram. *)
Definition visualization2 (df : DataFrame) : string * result (list call) :=
  ("cremation_price_distribution.png",
   plot_df2 ← dropna ["DirectCremationLowestPrice_cleaned"] df;
   Ok (if negb (df_empty plot_df2) then
         [histplot plot_df2 "DirectCremationLowestPrice_cleaned";
          set_title "Distribution of Direct Cremation Lowest Price";
          set_xlabel "Price ($)"; set_ylabel "Number of Funeral Homes"]
       else [text_center "No data for Direct Cremation Price plot."])).

(** Visualization 3: immediate burial price histogram. *)
Definition visualization3 (df : DataFrame) : string * result (list call) :=
  ("immediate_burial_price_distribution.png",
   plot_df3 ← dropna ["ImmediateBurialLowestPrice_cleaned"] df;
   Ok (if negb (df_empty plot_df3) then
         [histplot plot_df3 "ImmediateBurialLowestPrice_cleaned";
          set_title "Distribution of Immediate Burial Lowest Price";
          set_xlabel "Price ($)"; set_ylabel "Number of Funeral Homes"]
       else [text_center "No data for Immediate Burial Price plot."])).

(** Visualizations 4 to 6: the hybrid charts. *)
Definition visualization4 (df : DataFrame) : string * result (list call) :=
  ("basic_services_fee_hybrid_plot.png",
   create_hybrid_plot df "BasicServicesFee_cleaned" "Ownership"
     "Distribution of Basic Services Fee by Ownership Type"
     "Basic Services Fee ($)").

Definition visualization5 (df : DataFrame) : string * result (list call) :=
  ("direct_cremation_hybrid_plot.png",
   create_hybrid_plot df "DirectCremationLowestPrice_cleaned" "Ownership"
     "Distribution of Direct Cremation Price by Ownership Type"
     "Direct Cremation Lowest Price ($)").

Definition visualization6 (df : DataFrame) : string * result (list call) :=
  ("immediate_burial_hybrid_plot.png",
   create_hybrid_plot df "ImmediateBurialLowestPrice_cleaned" "Ownership"
     "Distribution of Immediate Burial Price by Ownership Type"
     "Immediate Burial Lowest Price ($)").

(** Visualization 7: percentage change histogram. *)
Definition visualization7 (df : DataFrame) : string * result (list call) :=
  ("cremation_percentage_change.png",
   plot_df7 ← dropna ["DirectCremation_Pct_Change_cleaned"] df;
   Ok (if negb (df_empty plot_df7) then
         [histplot plot_df7 "DirectCremation_Pct_Change_cleaned";
          set_title "Distribution of Percentage Change in Direct Cremation Price";
          set_xlabel "Percentage Change (%)"; set_ylabel "Number of Funeral Homes"]
       else [text_center "No data for Cremation Pct. Change plot."])).

(** Visualization 8: fee against cremation price. *)
Definition visualization8 (df : DataFrame) : string * result (list call) :=
  ("fee_vs_cremation_price.png",
   plot_df8 ← dropna ["BasicServicesFee_cleaned";
                      "DirectCremationLowestPrice_cleaned"; "Ownership"] df;
   Ok (if negb (df_empty plot_df8) then
         [scatterplot plot_df8 "DirectCremationLowestPrice_cleaned"
            "BasicServicesFee_cleaned" "Ownership";
          regplot plot_df8 "DirectCremationLowestPrice_cleaned"
            "BasicServicesFee_cleaned";
          set_title "Basic Services Fee vs. Direct Cremation Price by Ownership";
          set_xlabel "Direct Cremation Lowest Price ($)";
          set_ylabel "Basic Services Fee ($)"]
       else [text_center "No data for Fee vs. Cremation Price plot."])).

Definition completed : string :=
  "Plots have been saved to the script's directory as PNG files.".

(** The two [except] clauses of [main]. *)
Definition handler (e : exn) : io unit :=
  match e with
  | FileNotFoundError _ =>
      print "Error: 'oct10-fh-data.csv' not found. Please ensure it's in the same directory."
  | _ => print ("An unexpected error occurred: " +:+ exn_str e)
  end.

(** [main()], given what [pd.read_csv] returns for a path. *)
Definition main (read_csv : string -> result DataFrame) : io unit :=
  try_except
    (df ← lift (read_csv "oct10-fh-data.csv");
     let df := strip_object_columns df in
     df ← clean_columns cols_to_clean df;
     save_chart (visualization1 df);;
     save_chart (visualization2 df);;
     save_chart (visualization3 df);;
     save_chart (visualization4 df);;
     save_chart (visualization5 df);;
     save_chart (visualization6 df);;
     save_chart (visualization7 df);;
     save_chart (visualization8 df);;
     print completed)
    handler.

(** A run starts with nothing printed and no file written. *)
Definition fresh : world := {| stdout := []; files := [] |}.

(** The image of each chart with the columns its [dropna] asks for, in the
    order [main] draws them. *)
Definition chart_columns : list (string * list string) :=
  [("geographic_distribution.png",
    ["Latitude_cleaned"; "Longitude_cleaned"; "Ownership"]);
   ("cremation_price_distribution.png", ["DirectCremationLowestPrice_cleaned"]);
   ("immediate_burial_price_distribution.png",
    ["ImmediateBurialLowestPrice_cleaned"]);
   ("basic_services_fee_hybrid_plot.png",
    ["BasicServicesFee_cleaned"; "Ownership"]);
   ("direct_cremation_hybrid_plot.png",
    ["DirectCremationLowestPrice_cleaned"; "Ownership"]);
   ("immediate_burial_hybrid_plot.png",
    ["ImmediateBurialLowestPrice_cleaned"; "Ownership"]);
   ("cremation_percentage_change.png", ["DirectCremation_Pct_Change_cleaned"]);
   ("fee_vs_cremation_price.png",
    ["BasicServicesFee_cleaned"; "DirectCremationLowestPrice_cleaned";
     "Ownership"])].

(** The eight charts of a run in the order [main] draws them. *)
Definition visualizations (df : DataFrame)
  : list (string * result (list call)) :=
  [visualization1 df; visualization2 df; visualization3 df; visualization4 df;
   visualization5 df; visualization6 df; visualization7 df; visualization8 df].

(** One step of the run after the other, then [final]. *)
Definition chain (steps : list (io unit)) (final : io unit) : io unit :=
  foldr (fun step rest => step;; rest) final steps.

(** The charts written before the first one that raises. *)
Fixpoint saved (charts : list (string * result (list call)))
  : list (string * list call) :=
  match charts with
  | (name, Ok calls) :: rest => (name, calls) :: saved rest
  | _ => []
  end.

End Charts.

(** ** Sample tables *)

Module Sample.

(** Five homes with a cleaned fee; one has no owner and one has no fee. *)
Definition priced : DataFrame :=
  {| nrows := 5;
     columns :=
       list_to_map
         [("Ownership",
           Object [Text "Independent"; Text "SCI"; Text "FPG Beers & Story";
                   NA; Text "Independent"]);
          ("Fee_cleaned",
           Float64 [F64.of_Z 1000; F64.of_Z 2500; F64.of_Z 1895;
                    F64.of_Z 500; F64.nan])] |}.

(** The rows of [priced] that hold both an owner and a fee. *)
Definition priced_rows : DataFrame :=
  df_where priced (holds_all ["Fee_cleaned"; "Ownership"] priced).

Definition priced_labels : list cell :=
  [Text "Independent"; Text "SCI"; Text "FPG Beers & Story"].

(** Two homes, neither with both an owner and a fee. *)
Definition unpriced : DataFrame :=
  {| nrows := 2;
     columns :=
       list_to_map
         [("Ownership", Object [NA; Text "SCI"]);
          ("Fee_cleaned", Float64 [F64.of_Z 1000; F64.nan])] |}.

(** A survey file as [read_csv] loads it, with every expected column. *)
Definition survey : DataFrame :=
  {| nrows := 3;
     columns :=
       list_to_map
         [("Ownership", Object [Text "Independent "; Text "SCI"; NA]);
          ("Latitude", Float64 [F64.of_Z 42; F64.of_Z 43; F64.of_Z 41]);
          ("Longitude", Float64 [F64.of_Z (-71); F64.of_Z (-72); F64.of_Z (-73)]);
          ("BasicServicesFee", Object [Text "$1,000"; Text "$2,500"; Text "N/A"]);
          ("DirectCremationLowestPrice", Int64 [1295; 995; 2000]);
          ("DirectCremation_Pct_Change", Object [Text "12%"; NA; Text "-3.5%"]);
          ("ImmediateBurialLowestPrice", Float64 [F64.nan; F64.nan; F64.nan])] |}.

(** The same file without its [Latitude] column. *)
Definition survey_without_latitude : DataFrame :=
  {| nrows := 3; columns := delete "Latitude" (columns survey) |}.

End Sample.

(** ** Pipeline B: [lobbying_chart.py] *)

Module Lobbying.

Definition quote : ascii := "034"%char.
Definition newline : ascii := "010"%char.

Definition quoted (s : string) : string :=
  String quote s +:+ String quote EmptyString.

(** The embedded CSV text, line by line. *)
Definition data : string :=
  String.concat (String newline EmptyString)
    ["Year,Yearth Funeral Group Inc.,Massachusetts Funeral Directors Association,Affiliated Family Funeral Service Inc.,Massachusetts Cemetery Association,Proprietors of the Cemetery of Mount Auburn,Total";
     quoted "2025(*Jan-June)" +:+ ",22911,41000,3750,9000,36610,113271";
     "2024,0,92166,0,18000,60000,172190";
     "2023,0,58000,0,16000,60910,136933";
     "2022,0,28000,0,12000,54750,96772";
     "2021,0,28678,0,12000,0,42699";
     "2020,0,14428,0,12000,0,28448";
     "2019,0,14000,0,12000,0,28019";
     "2018,0,10000,0,12000,0,24018";
     "2017,0,14000,0,12000,0,28017";
     "2016,0,14000,0,12000,0,28016";
     "2015,0,14000,0,12000,0,28015";
     ""].

(** *** [pd.read_csv] on a text *)

Fixpoint split_lines (s : string) (cur : string) : list string :=
  match s with
  | EmptyString => [cur]
  | String c r =>
      if bool_decide (c = newline) then cur :: split_lines r EmptyString
      else split_lines r (cur +:+ String c EmptyString)
  end.

(** The fields of one line: commas separate, double quotes protect. *)
Fixpoint split_fields (s : string) (cur : string) (in_quotes : bool)
  : list string :=
  match s with
  | EmptyString => [cur]
  | String c r =>
      if bool_decide (c = quote) then split_fields r cur (negb in_quotes)
      else if bool_decide (c = ","%char) && negb in_quotes then
        cur :: split_fields r EmptyString false
      else split_fields r (cur +:+ String c EmptyString) in_quotes
  end.

(** The strings [read_csv] reads as a missing value. *)
Definition na_values : list string :=
  [""; "#N/A"; "#N/A N/A"; "#NA"; "-1.#IND"; "-1.#QNAN"; "-NaN"; "-nan";
   "1.#IND"; "1.#QNAN"; "<NA>"; "N/A"; "NA"; "NULL"; "NaN"; "None"; "n/a";
   "nan"; "null"].

(** The dtype of a column of fields: numeric when every field is a number
    or missing, text otherwise. *)
Definition infer_column (fields : list string) : Series :=
  let cells :=
    (fun s => if bool_decide (s ∈ na_values) then NA else Text s) <$> fields in
  match to_numeric cells errors_raise with
  | Ok s => s
  | Raise _ => Object cells
  end.

Definition read_csv (text : string) : DataFrame :=
  let rows :=
    (fun l => split_fields l EmptyString false)
      <$> filter (fun l => l ≠ EmptyString) (split_lines text EmptyString) in
  match rows with
  | [] => {| nrows := 0; columns := ∅ |}
  | header :: body =>
      {| nrows := length body;
         columns :=
           list_to_map
             (imap (fun j name =>
                      (name, infer_column ((fun r => default EmptyString (r !! j)) <$> body)))
                header) |}
  end.

(** *** The steps of the script *)

(** [re.search(r'(\d{4})', s)]: the first four digits in a row, if any. *)
Fixpoint extract_4digits (s : string) : option string :=
  match s with
  | EmptyString => None
  | String a t =>
      match t with
      | String b (String c (String d _)) =>
          if forallb (fun x => bool_decide (is_Some (Str.digit x))) [a; b; c; d]
          then Some (String a (String b (String c (String d EmptyString))))
          else extract_4digits t
      | _ => None
      end
  end.

(** [.str.extract(r'(\d{4})')]: NaN where the pattern is not found. *)
Definition str_extract (ss : list string) : list cell :=
  (fun s => from_option Text NA (extract_4digits s)) <$> ss.

(** [.astype(int)] on a column of digit strings; NaN has no integer. *)
Definition astype_int (xs : list cell) : result (list Z) :=
  mapM (fun c =>
          match c with
          | Text s =>
              match py_int s with
              | Some z => Ok z
              | None => Raise (ValueError "invalid literal for int()")
              end
          | NA => Raise (ValueError "cannot convert float NaN to integer")
          end) xs.

(** Whether row [i] of a column passes a test. *)
Definition holds_at (s : Series) (test : scalar -> bool) (i : nat) : bool :=
  from_option test false (tolist s !! i).

Definition funeral_groups : list string :=
  ["Yearth Funeral Group Inc.";
   "Massachusetts Funeral Directors Association";
   "Affiliated Family Funeral Service Inc."].

Definition cemetery_groups : list string :=
  ["Massachusetts Cemetery Association";
   "Proprietors of the Cemetery of Mount Auburn"].

(** int64 arithmetic wraps around. *)
Definition wrap64 (z : Z) : Z := (z + 2 ^ 63) mod 2 ^ 64 - 2 ^ 63.

(** [df[cols].sum(axis=1)] for int64 columns: the sum of each row. *)
Definition sum_axis1 (df : DataFrame) (cols : list string) : result Series :=
  picked ← mapM (getitem df) cols;
  ints ← mapM (fun s =>
                 match s with
                 | Int64 zs => Ok zs
                 | _ => Raise (Unmodelled "sum of columns that are not int64")
                 end) picked;
  Ok (Int64 ((fun i =>
                foldl (fun acc zs => wrap64 (acc + default 0 (zs !! i))) 0 ints)
               <$> seq 0 (nrows df))).

(** [df[[key] + cols].set_index(key)]: each row as its key and its values
    in the columns [cols]. *)
Definition set_index (df : DataFrame) (key : string) (cols : list string)
  : result (list (scalar * list scalar)) :=
  keys ← getitem df key;
  picked ← mapM (getitem df) cols;
  Ok (omap (fun i =>
              k ← tolist keys !! i;
              vs ← mapM (fun s => tolist s !! i) picked;
              Some (k, vs))
        (seq 0 (nrows df))).

Definition key_le (a b : scalar * list scalar) : Prop := py_le a.1 b.1.

#[global] Instance key_le_dec : RelDecision key_le.
Proof. intros a b. unfold key_le. apply _. Defined.

(** [.sort_index()]: rows by ascending key. *)
Definition sort_index (rows : list (scalar * list scalar))
  : list (scalar * list scalar) :=
  merge_sort key_le rows.

(** The script up to [df_agg], the table whose two columns it then plots
    against the year and saves as an image. *)
Definition df_agg : result (list (scalar * list scalar)) :=
  let df := read_csv data in
  year ← getitem df "Year";
  strings ← astype_str year;
  years ← astype_int (str_extract strings);
  let df := setitem df "Year" (Int64 years) in
  year ← getitem df "Year";
  let df :=
    df_where df (fun i =>
      holds_at year (fun y => py_ge y (PyInt 2017)) i
      && holds_at year (fun y => py_leq y (PyInt 2024)) i) in
  funeral ← sum_axis1 df funeral_groups;
  let df := setitem df "Funeral Group Spending" funeral in
  cemetery ← sum_axis1 df cemetery_groups;
  let df := setitem df "Cemetery Group Spending" cemetery in
  rows ← set_index df "Year" ["Funeral Group Spending"; "Cemetery Group Spending"];
  Ok (sort_index rows).

End Lobbying.

(** * Properties *)

(** Settles a decidable statement about concrete data by evaluating its
    decision procedure. *)
Ltac by_computation := refine (bool_decide_unpack _ _); vm_compute; exact I.

(** ** Cleaning a column *)

Section Cleaning.

Import Charts.

Local Open Scope string_scope.

Lemma cleaned_cells xs :
  replace [""; "N/A"; "nan"]
    (str_strip (str_replace ["$"; ","; "%"]%char "" (str_cell <$> xs)))
  = prepared <$> xs.
Proof.
  unfold replace, str_strip, str_replace.
  rewrite <- !list_fmap_compose. apply list_fmap_ext.
  intros _ c _. reflexivity.
Qed.

Lemma as_int_stored ps zs :
  mapM as_int ps = Some zs -> Forall2 stored_as ps (PyInt <$> zs).
Proof.
  rewrite mapM_Some. induction 1 as [|p z ps zs Hp _ IH]; simpl.
  - constructor.
  - constructor; [|done].
    destruct p as [z' f| |]; simpl in *; try discriminate.
    case_bool_decide; [|discriminate]. injection Hp as ->. by exists f.
Qed.

(** With [errors='coerce'], [to_numeric] returns a numeric column that
    holds, position by position, the number read from each cell. *)
Lemma to_numeric_coerce xs :
  exists out,
    to_numeric xs errors_coerce = Ok out /\
    is_numeric_dtype out = true /\
    Forall2 stored_as (parse_cell <$> xs) (tolist out).
Proof.
  assert (Forall2 stored_as (parse_cell <$> xs)
            (tolist (Float64 (as_float64 <$> (parse_cell <$> xs))))) as Hfloat.
  { simpl. rewrite <- list_fmap_compose.
    apply Forall2_fmap_r, Forall_Forall2_diag, Forall_true. done. }
  unfold to_numeric. cbn [bool_decide decide_rel errors_mode_eq_dec andb].
  rewrite bool_decide_eq_false_2 by discriminate. cbn [andb].
  destruct (mapM as_int (parse_cell <$> xs)) as [zs|] eqn:E; [|by eexists].
  apply as_int_stored in E.
  destruct (existsb above_int64 _); [destruct (existsb negative _)|];
    eexists; (split_and!; [reflexivity|done|done]).
Qed.

Lemma len_tolist s : length (tolist s) = len s.
Proof. destruct s; simpl; by rewrite length_fmap. Qed.

Lemma clean_object xs :
  exists out,
    clean_and_convert_to_numeric (Object xs) = Ok out /\
    is_numeric_dtype out = true /\
    Forall2 (fun c v => stored_as (parse_cell (prepared c)) v) xs (tolist out).
Proof.
  unfold clean_and_convert_to_numeric. cbn. rewrite cleaned_cells.
  destruct (to_numeric_coerce (prepared <$> xs)) as (out & E & Hn & Hs).
  exists out. split_and!; [done..|].
  rewrite <- list_fmap_compose, Forall2_fmap_l in Hs. exact Hs.
Qed.

(** Cleaning always returns, and what it returns is a numeric column. *)
Lemma clean_total series :
  exists out,
    clean_and_convert_to_numeric series = Ok out /\
    is_numeric_dtype out = true.
Proof.
  destruct series as [zs|zs|fs|xs]; [by eexists..|].
  destruct (clean_object xs) as (out & E & Hn & _). by exists out.
Qed.

Lemma stored_nan p v :
  stored_as p v -> p = PFail \/ p = PFloat F64.nan -> v = PyFloat F64.nan.
Proof.
  destruct v; simpl; intros H [-> | ->]; try done; try (by destruct H);
    by subst.
Qed.

(** C1, as the specification words it, fails: a float64 column is returned
    as it is, so an infinite entry stays in the output. *)
Lemma clean_keeps_infinity :
  ~ exists out,
      clean_and_convert_to_numeric (Float64 [F64.inf]) = Ok out /\
      len out = len (Float64 [F64.inf]) /\
      Forall (fun v => finite_or_missing v = true) (tolist out).
Proof.
  intros (out & E & _ & H). simpl in E. injection E as <-.
  simpl in H. apply Forall_cons_1 in H as [H _]. discriminate H.
Qed.

(** The text [inf] is read as a number too, and the number is infinite; a
    literal too large for a double is not a number. *)
Example clean_text_inf :
  clean_and_convert_to_numeric (Object [Text "inf"; Text "$1e400"])
  = Ok (Float64 [F64.inf; F64.nan]).
Proof. vm_compute. reflexivity. Qed.

(** White space is stripped whatever its code point: the cell made of
    U+00A0 (the bytes 194 and 160) and the digit 7 is read as 7, and so is
    the digit between U+2003 and U+3000. *)
Example clean_no_break_space :
  clean_and_convert_to_numeric
    (Object [Text (String "194" (String "160" "7")); Text "8";
             Text (String "226" (String "128" (String "131"
                    (String "7" (String "227" (String "128"
                      (String "128" EmptyString)))))))])
  = Ok (Int64 [7; 8; 7]).
Proof. vm_compute. reflexivity. Qed.

(** The dtype of the result and the float of an integer literal: a column of
    integers above the int64 range is a uint64 column, and in a float64
    column the text [-0] is the float [-0.0]. *)
Example clean_integer_edges :
  clean_and_convert_to_numeric (Object [Text "9223372036854775808"; Text "$7"])
  = Ok (UInt64 [2 ^ 63; 7]) /\
  clean_and_convert_to_numeric (Object [Text "-0"; Text "1.5"])
  = Ok (Float64 [S754_zero true; F64.div (F64.of_Z 3) (F64.of_Z 2)]) /\
  clean_and_convert_to_numeric (Object [Text "-0"; Text "15"])
  = Ok (Int64 [0; 15]).
Proof. split_and!; vm_compute; reflexivity. Qed.

(** C1 (amended): [clean_and_convert_to_numeric] never raises and returns a
    numeric column of the length of its input, whose entries are numbers
    (finite or infinite) or NaN; a cell whose text is not a number becomes
    NaN. *)
Theorem clean_returns_numeric (series : Series) :
  exists out,
    clean_and_convert_to_numeric series = Ok out /\
    len out = len series /\
    is_numeric_dtype out = true /\
    forall xs i t,
      series = Object xs ->
      xs !! i = Some (Text t) ->
      parse_number (Str.strip (Str.sub_class ["$"; ","; "%"]%char "" t)) = PFail ->
      tolist out !! i = Some (PyFloat F64.nan).
Proof.
  destruct series as [zs|zs|fs|xs].
  - exists (Int64 zs). split_and!; try done.
  - exists (UInt64 zs). split_and!; try done.
  - exists (Float64 fs). split_and!; try done.
  - destruct (clean_object xs) as (out & E & Hn & Hs).
    exists out. split_and!; try done.
    + rewrite <- len_tolist. symmetry. by eapply Forall2_length.
    + intros ? i t [= <-] Hc Hp.
      destruct (Forall2_lookup_l _ _ _ _ _ Hs Hc) as (v & Hv & Hst).
      rewrite Hv. f_equal. eapply stored_nan; [done|].
      unfold prepared. case_bool_decide; simpl; auto.
Qed.

Lemma clean_returns_numeric_witness :
  exists out,
    clean_and_convert_to_numeric (Object [Text "$12"; Text "call us"]) = Ok out /\
    len out = 2%nat /\
    tolist out !! 1%nat = Some (PyFloat F64.nan).
Proof.
  destruct (clean_returns_numeric (Object [Text "$12"; Text "call us"]))
    as (out & E & Hl & _ & H).
  exists out. split_and!; [done..|].
  apply (H [Text "$12"; Text "call us"] 1%nat "call us"); reflexivity.
Defined.

(** C2: cleaning is idempotent, and a numeric column comes back as it
    is. *)
Theorem clean_idempotent (series out : Series) :
  clean_and_convert_to_numeric series = Ok out ->
  clean_and_convert_to_numeric out = Ok out /\
  (is_numeric_dtype series = true -> out = series).
Proof.
  intros E. split.
  - assert (is_numeric_dtype out = true) as Hn.
    { destruct (clean_total series) as (out' & E' & Hn). congruence. }
    unfold clean_and_convert_to_numeric. by rewrite Hn.
  - intros Hn. unfold clean_and_convert_to_numeric in E. rewrite Hn in E.
    congruence.
Qed.

Lemma clean_idempotent_witness :
  let series := Object [Text "$1,000"; NA; Text " 2.5% "] in
  let out := Float64 [F64.of_Z 1000; F64.nan; F64.of_decimal false 25 (-1)] in
  clean_and_convert_to_numeric out = Ok out /\
  (is_numeric_dtype series = true -> out = series).
Proof.
  intros series out. apply (clean_idempotent series out).
  vm_compute. reflexivity.
Defined.

(** C9: a missing entry of the input is missing in the output, at the same
    position. *)
Theorem clean_keeps_missing (series out : Series) (i : nat) (v : scalar) :
  clean_and_convert_to_numeric series = Ok out ->
  tolist series !! i = Some v ->
  isna v = true ->
  tolist out !! i = Some (PyFloat F64.nan).
Proof.
  intros E Hv Hna.
  assert (v = PyFloat F64.nan) as ->.
  { destruct v as [|[]|]; simpl in Hna; try discriminate. done. }
  destruct series as [zs|zs|fs|xs].
  - simpl in E. by injection E as <-.
  - simpl in E. by injection E as <-.
  - simpl in E. by injection E as <-.
  - destruct (clean_object xs) as (out' & E' & _ & Hs).
    assert (out' = out) as -> by congruence.
    simpl in Hv. rewrite list_lookup_fmap in Hv.
    destruct (xs !! i) as [c|] eqn:Hc; [|discriminate].
    destruct c; [discriminate|].
    destruct (Forall2_lookup_l _ _ _ _ _ Hs Hc) as (w & Hw & Hst).
    rewrite Hw. f_equal. eapply stored_nan; [done|]. by right.
Qed.

Lemma clean_keeps_missing_witness :
  tolist (Float64 [F64.of_Z 1295; F64.nan]) !! 1%nat = Some (PyFloat F64.nan).
Proof.
  apply (clean_keeps_missing (Object [Text "$1,295"; NA]) _ 1%nat (PyFloat F64.nan));
    vm_compute; reflexivity.
Defined.

(** C3: the worked examples of the specification, wherever the entry
    stands in a text column. *)
Theorem clean_examples (xs : list cell) (out : Series) (i : nat) (t : string) :
  clean_and_convert_to_numeric (Object xs) = Ok out ->
  xs !! i = Some (Text t) ->
  (t = "$1,234.50" -> number_at out i = Some (F64.div (F64.of_Z 2469) (F64.of_Z 2))) /\
  (t = "12%" -> number_at out i = Some (F64.of_Z 12)) /\
  (t = " 7 " -> number_at out i = Some (F64.of_Z 7)) /\
  (t ∈ [""; "N/A"; "nan"] -> tolist out !! i = Some (PyFloat F64.nan)).
Proof.
  intros E Hc.
  destruct (clean_object xs) as (out' & E' & _ & Hs).
  assert (out' = out) as -> by congruence.
  destruct (Forall2_lookup_l _ _ _ _ _ Hs Hc) as (v & Hv & Hst).
  unfold number_at. rewrite Hv. simpl.
  split_and!.
  - intros ->. vm_compute in Hst.
    destruct v as [z|f|]; [by destruct Hst|by subst|done].
  - intros ->. vm_compute in Hst.
    destruct v as [z|f|]; [by destruct Hst as [f [= <-]]|by subst|done].
  - intros ->. vm_compute in Hst.
    destruct v as [z|f|]; [by destruct Hst as [f [= <-]]|by subst|done].
  - intros Hin. f_equal. eapply stored_nan; [done|].
    right. set_unfold in Hin. destruct Hin as [->|[->|[->|[]]]]; reflexivity.
Qed.

Lemma clean_examples_witness :
  let xs := [Text "$1,234.50"; Text "12%"; Text " 7 "; Text "N/A"] in
  let out :=
    Float64 [F64.div (F64.of_Z 2469) (F64.of_Z 2); F64.of_Z 12; F64.of_Z 7;
             F64.nan] in
  number_at out 0 = Some (F64.div (F64.of_Z 2469) (F64.of_Z 2)) /\
  number_at out 1 = Some (F64.of_Z 12) /\
  number_at out 2 = Some (F64.of_Z 7) /\
  tolist out !! 3%nat = Some (PyFloat F64.nan).
Proof.
  intros xs out.
  assert (clean_and_convert_to_numeric (Object xs) = Ok out) as E
    by (vm_compute; reflexivity).
  split_and!.
  - apply (clean_examples xs out 0 "$1,234.50" E); reflexivity.
  - apply (clean_examples xs out 1 "12%" E); reflexivity.
  - apply (clean_examples xs out 2 " 7 " E); reflexivity.
  - apply (clean_examples xs out 3 "N/A" E); [reflexivity|].
    by_computation.
Defined.

End Cleaning.

(** ** Row selection *)

Section Frames.

Implicit Types (df : DataFrame) (s : Series) (idx : list nat).

Lemma lookup_df_take idx df c : df_take idx df !! c = take idx <$> df !! c.
Proof. unfold lookup, dataframe_lookup. simpl. apply lookup_fmap. Qed.

Lemma tolist_take idx s :
  tolist (take idx s) = omap (fun i => tolist s !! i) idx.
Proof.
  destruct s as [xs|xs|xs|xs]; simpl; rewrite list_fmap_omap;
    apply list_omap_ext, Forall2_same_length_lookup_2; try done;
    intros i a b Ha Hb; assert (a = b) as -> by congruence;
    by rewrite list_lookup_fmap.
Qed.

Lemma len_take idx s :
  Forall (fun i => (i < len s)%nat) idx -> len (take idx s) = length idx.
Proof.
  intros H. rewrite <- len_tolist, tolist_take.
  rewrite <- len_tolist in H.
  induction H as [|i idx Hi _ IH]; [done|].
  destruct (lookup_lt_is_Some_2 _ _ Hi) as [v Hv].
  cbn. rewrite Hv. cbn. f_equal. exact IH.
Qed.

Lemma where_lt n cond : Forall (fun i => (i < n)%nat) (where_ n cond).
Proof.
  apply Forall_forall. intros i Hi.
  apply list_elem_of_filter in Hi as [_ Hi].
  apply elem_of_seq in Hi. lia.
Qed.

Lemma elem_of_where n cond i :
  i ∈ where_ n cond <-> (i < n)%nat /\ cond i = true.
Proof.
  unfold where_. rewrite list_elem_of_filter, elem_of_seq. intuition lia.
Qed.

(** Selecting rows of a well-formed table gives a well-formed table. *)
Lemma well_formed_take idx df :
  well_formed df ->
  Forall (fun i => (i < nrows df)%nat) idx ->
  well_formed (df_take idx df).
Proof.
  intros Hwf Hidx c s Hs. simpl in *.
  apply lookup_fmap_Some in Hs as (s0 & <- & Hs0).
  apply len_take. by rewrite (Hwf _ _ Hs0).
Qed.

Lemma dropna_Ok subset df plot_df :
  dropna subset df = Ok plot_df ->
  Forall (fun c => is_Some (df !! c)) subset /\
  plot_df = df_where df (holds_all subset df).
Proof.
  unfold dropna.
  destruct (filter _ subset) as [|c l] eqn:E; [|discriminate].
  intros [= <-]. split; [|done].
  apply Forall_forall. intros c Hc.
  destruct (df !! c) eqn:Hdf; [by eexists|].
  assert (c ∈ filter (fun c => df !! c = None) subset) as Hin
    by by apply list_elem_of_filter.
  rewrite E in Hin. by apply elem_of_nil in Hin.
Qed.

Lemma dropna_columns subset df plot_df c :
  dropna subset df = Ok plot_df ->
  c ∈ subset ->
  exists s,
    df !! c = Some s /\
    getitem plot_df c = Ok (take (where_ (nrows df) (holds_all subset df)) s).
Proof.
  intros [Hall ->]%dropna_Ok Hc.
  rewrite Forall_forall in Hall. destruct (Hall c Hc) as [s Hs].
  exists s. split; [done|].
  unfold getitem, df_where. by rewrite lookup_df_take, Hs.
Qed.

Lemma elem_of_take idx s v :
  v ∈ tolist (take idx s) <-> exists i, i ∈ idx /\ tolist s !! i = Some v.
Proof. rewrite tolist_take. apply list_elem_of_omap. Qed.

Lemma getitem_Ok df c s : getitem df c = Ok s <-> df !! c = Some s.
Proof. unfold getitem. destruct (df !! c); split; congruence. Qed.

Lemma getitem_df_where df cond c s :
  df !! c = Some s ->
  getitem (df_where df cond) c = Ok (take (where_ (nrows df) cond) s).
Proof.
  intros Hs. apply getitem_Ok. unfold df_where.
  by rewrite lookup_df_take, Hs.
Qed.

(** After [dropna(subset=...)] a listed column has one entry per remaining
    row, and none of them is missing. *)
Lemma dropna_column subset df plot_df c s :
  well_formed df ->
  dropna subset df = Ok plot_df ->
  c ∈ subset ->
  plot_df !! c = Some s ->
  len s = nrows plot_df /\ Forall (fun v => isna v = false) (tolist s).
Proof.
  intros Hwf Hdrop Hc Hs.
  destruct (dropna_columns _ _ _ _ Hdrop Hc) as (s0 & Hs0 & Hget).
  apply getitem_Ok in Hget. rewrite Hget in Hs. injection Hs as <-.
  apply dropna_Ok in Hdrop as [_ ->]. split.
  - simpl. apply len_take. rewrite (Hwf _ _ Hs0). apply where_lt.
  - apply Forall_forall. intros v (i & Hi & Hv)%elem_of_take.
    apply elem_of_where in Hi as [_ Hi]. unfold holds_all in Hi.
    rewrite forallb_forall in Hi. specialize (Hi c).
    rewrite Hs0 in Hi. simpl in Hi. unfold notna_at in Hi. rewrite Hv in Hi.
    apply negb_true_iff, Hi, list_elem_of_In, Hc.
Qed.

Lemma well_formed_dropna subset df plot_df :
  well_formed df -> dropna subset df = Ok plot_df -> well_formed plot_df.
Proof.
  intros Hwf [_ ->]%dropna_Ok. apply well_formed_take; [done|apply where_lt].
Qed.

Lemma dropna_is_Ok subset df :
  Forall (fun c => is_Some (df !! c)) subset ->
  dropna subset df = Ok (df_where df (holds_all subset df)).
Proof.
  intros H. unfold dropna.
  destruct (filter _ subset) as [|c l] eqn:E; [done|].
  assert (c ∈ filter (fun c => df !! c = None) subset) as Hc
    by (rewrite E; left).
  apply list_elem_of_filter in Hc as [Hnone Hc].
  rewrite Forall_forall in H. destruct (H c Hc) as [s Hs]. congruence.
Qed.

(** Reading a selection of rows: row [j] of the selection is the row of the
    column that [idx] names at [j]. *)
Lemma tolist_take_lookup idx s j :
  Forall (fun i => (i < len s)%nat) idx ->
  tolist (take idx s) !! j = idx !! j ≫= (fun i => tolist s !! i).
Proof.
  rewrite tolist_take, <- len_tolist. intros H. revert j.
  induction H as [|i idx Hi _ IH]; intros j; [done|].
  destruct (lookup_lt_is_Some_2 _ _ Hi) as [v Hv].
  cbn. rewrite Hv. cbn. destruct j as [|j]; cbn; [done|apply IH].
Qed.

(** Rows keep what they hold when the table is reordered. *)
Lemma holds_all_take subset df p j i :
  well_formed df ->
  Forall (fun i => (i < nrows df)%nat) p ->
  p !! j = Some i ->
  holds_all subset (df_take p df) j = holds_all subset df i.
Proof.
  intros Hwf Hp Hj. unfold holds_all.
  induction subset as [|c subset IH]; [done|].
  cbn. rewrite IH. f_equal.
  rewrite lookup_df_take. destruct (df !! c) as [s|] eqn:Hs; [|done].
  cbn. unfold notna_at. rewrite tolist_take_lookup, Hj; [done|].
  by rewrite (Hwf _ _ Hs).
Qed.

Lemma permutation_lt p n :
  p ≡ₚ seq 0 n -> Forall (fun i => (i < n)%nat) p.
Proof.
  intros Hp. apply Forall_forall. intros i Hi. rewrite Hp in Hi.
  apply elem_of_seq in Hi. lia.
Qed.

(** The values that survive [dropna] in a column are the same whatever the
    order of the rows. *)
Lemma dropna_take_values subset df p c s v :
  well_formed df ->
  p ≡ₚ seq 0 (nrows df) ->
  df !! c = Some s ->
  v ∈ tolist (take (where_ (length p) (holds_all subset (df_take p df)))
                (take p s))
  <-> v ∈ tolist (take (where_ (nrows df) (holds_all subset df)) s).
Proof.
  intros Hwf Hp Hs. pose proof (permutation_lt _ _ Hp) as Hlt.
  assert (Forall (fun i => (i < len s)%nat) p) as Hlts
    by by rewrite (Hwf _ _ Hs).
  rewrite !elem_of_take. split.
  - intros (j & [Hj Hholds]%elem_of_where & Hv).
    rewrite tolist_take_lookup in Hv by done.
    destruct (p !! j) as [i|] eqn:Hpj; [|done]. cbn in Hv.
    exists i. split; [|done]. apply elem_of_where. split.
    + rewrite Forall_forall in Hlt. apply Hlt. by eapply list_elem_of_lookup_2.
    + by rewrite <- (holds_all_take subset df p j i).
  - intros (i & [Hi Hholds]%elem_of_where & Hv).
    assert (i ∈ p) as Hin by (rewrite Hp; apply elem_of_seq; lia).
    apply list_elem_of_lookup in Hin as [j Hj].
    exists j. split.
    + apply elem_of_where. split; [by eapply lookup_lt_Some|].
      by rewrite (holds_all_take subset df p j i).
    + rewrite tolist_take_lookup by done. by rewrite Hj.
Qed.

End Frames.

Section Builtins.

Lemma SFcompare_refl f : F64.isnan f = false -> SFcompare f f = Some Eq.
Proof.
  destruct f as [[]|[]| |[] m e]; simpl; try done; intros _;
    by rewrite Z.compare_refl, Pos.compare_cont_refl.
Qed.

(** [v == v] holds for every value but NaN. *)
Lemma py_eq_refl v : isna v = false -> py_eq v v = true.
Proof.
  destruct v as [z|f|t]; simpl; intros H.
  - by apply bool_decide_eq_true.
  - unfold F64.eqb, SFeqb. by rewrite SFcompare_refl.
  - by apply bool_decide_eq_true.
Qed.

Lemma py_eq_str v t : py_eq v (PyStr t) = true <-> v = PyStr t.
Proof.
  destruct v as [z|f|t']; simpl; try (split; [discriminate|congruence]).
  rewrite bool_decide_eq_true. split; congruence.
Qed.

Lemma elem_of_unique v l : v ∈ unique l -> v ∈ l.
Proof.
  revert v. induction l as [|x l IH]; intros v; simpl; [done|].
  rewrite !elem_of_cons, list_elem_of_filter. intros [->|[_ H]]; auto.
Qed.

Lemma sorted_Ok l order :
  sorted l = Ok order -> order = merge_sort py_le l.
Proof. unfold sorted. case_match; congruence. Qed.

Lemma elem_of_sorted l order v : sorted l = Ok order -> v ∈ order -> v ∈ l.
Proof.
  intros ->%sorted_Ok. by rewrite merge_sort_Permutation.
Qed.

Lemma least_elem_of {A} (lt : A -> A -> bool) x l : least lt x l ∈ x :: l.
Proof.
  unfold least. revert x. induction l as [|y l IH]; intros x; simpl.
  - by left.
  - specialize (IH (if lt y x then y else x)).
    apply elem_of_cons in IH as [->|IH]; [|by do 2 right].
    case_match; [right|]; by left.
Qed.

Lemma tolist_numeric s v :
  is_numeric_dtype s = true -> v ∈ tolist s -> is_str v = false.
Proof.
  destruct s; simpl; try done; intros _ (x & -> & _)%list_elem_of_fmap; done.
Qed.

Lemma extremum_numeric less s :
  is_numeric_dtype s = true -> is_str (extremum less s) = false.
Proof.
  intros Hn. unfold extremum.
  destruct (filter _ (tolist s)) as [|v l] eqn:E; [done|].
  eapply tolist_numeric; [done|].
  assert (least less v l ∈ filter (fun v => isna v = false) (tolist s)) as Hin
    by (rewrite E; apply least_elem_of).
  by apply list_elem_of_filter in Hin as [_ ?].
Qed.

Lemma format_0f_numeric v :
  is_str v = false -> exists label, format_0f v = Ok label.
Proof. destruct v; simpl; [eauto..|done]. Qed.

Lemma median_numeric s :
  is_numeric_dtype s = true -> exists m, median s = Ok (PyFloat m).
Proof. destruct s; simpl; [eauto..|done]. Qed.

End Builtins.

(** ** Sorting text labels *)

Section MergeSortFmap.

Context {A B : Type} (f : A -> B) (R1 : relation A) (R2 : relation B).
Context `{!RelDecision R1, !RelDecision R2}.
Hypothesis embeds : forall x y, R1 x y <-> R2 (f x) (f y).

Implicit Types (l : list A) (st : list (option (list A))).

Local Abbreviation on_stack st :=
  (fmap (M:=list) (fmap (M:=option) (fmap (M:=list) f)) st).

Lemma list_merge_fmap (l1 l2 : list A) :
  list_merge R2 (f <$> l1) (f <$> l2) = f <$> list_merge R1 l1 l2.
Proof.
  revert l2. induction l1 as [|x1 l1 IH1]; intros l2.
  { by rewrite fmap_nil, !list_merge_nil_l. }
  induction l2 as [|x2 l2 IH2].
  { by rewrite fmap_nil, !list_merge_nil_r. }
  rewrite !fmap_cons, !list_merge_cons.
  destruct (decide (R1 x1 x2)) as [H|H], (decide (R2 (f x1) (f x2))) as [H'|H'];
    try (exfalso; apply embeds in H || apply embeds in H'; tauto).
  - rewrite fmap_cons. f_equal. rewrite <- IH1. by rewrite fmap_cons.
  - rewrite fmap_cons. f_equal. rewrite <- IH2. by rewrite fmap_cons.
Qed.

Lemma merge_list_to_stack_fmap st l :
  merge_list_to_stack R2 (on_stack st) (f <$> l)
  = on_stack (merge_list_to_stack R1 st l).
Proof.
  revert l. induction st as [|[l'|] st IH]; intros l; csimpl; [done| |done].
  by rewrite list_merge_fmap, IH.
Qed.

Lemma merge_stack_fmap st :
  merge_stack R2 (on_stack st) = f <$> merge_stack R1 st.
Proof.
  induction st as [|[l|] st IH]; csimpl; [done| |done].
  by rewrite IH, list_merge_fmap.
Qed.

Lemma merge_sort_aux_fmap st l :
  merge_sort_aux R2 (on_stack st) (f <$> l)
  = f <$> merge_sort_aux R1 st l.
Proof.
  revert st. induction l as [|x l IH]; intros st; csimpl.
  - apply merge_stack_fmap.
  - rewrite <- IH. f_equal. apply (merge_list_to_stack_fmap st [x]).
Qed.

(** Sorting commutes with a map that preserves and reflects the order. *)
Lemma merge_sort_fmap l : merge_sort R2 (f <$> l) = f <$> merge_sort R1 l.
Proof. apply (merge_sort_aux_fmap []). Qed.

End MergeSortFmap.

Section TextLabels.

Lemma filter_fmap_list {A B} (f : A -> B) (P : B -> Prop)
    `{!forall y, Decision (P y)} (l : list A) :
  filter P (f <$> l) = f <$> filter (fun x => P (f x)) l.
Proof.
  induction l as [|x l IH]; [done|].
  rewrite fmap_cons, !filter_cons. case_decide; csimpl; by rewrite IH.
Qed.

Lemma py_le_str x y : String.le x y <-> py_le (PyStr x) (PyStr y).
Proof.
  unfold String.le, py_le, py_lt, String.leb, String.ltb.
  rewrite (String.compare_antisym x y).
  destruct (String.compare y x); simpl; split; done.
Qed.

(** The distinct values of a list of strings. *)
Lemma unique_str l :
  exists u,
    unique (PyStr <$> l) = PyStr <$> u /\
    NoDup u /\
    forall t, t ∈ u <-> t ∈ l.
Proof.
  induction l as [|x l (u & Hu & Hnd & Hin)].
  { exists []. split_and!; [done|constructor|done]. }
  exists (x :: filter (fun t => py_eq (PyStr x) (PyStr t) = false) u).
  split_and!.
  - rewrite fmap_cons. cbn [unique]. rewrite Hu. f_equal.
    by rewrite filter_fmap_list.
  - constructor; [|by apply NoDup_filter].
    rewrite list_elem_of_filter. intros [H _].
    by rewrite py_eq_refl in H.
  - intros t. rewrite !elem_of_cons, list_elem_of_filter, Hin. simpl.
    rewrite bool_decide_eq_false.
    destruct (decide (t = x)) as [->|]; [tauto|].
    split; [tauto|]. intros [?|?]; [done|]. right. split; [congruence|done].
Qed.

(** A text column without missing entries is a list of strings. *)
Lemma object_texts (labels : list cell) :
  Forall (fun v => isna v = false) (tolist (Object labels)) ->
  exists texts, labels = Text <$> texts /\ tolist (Object labels) = PyStr <$> texts.
Proof.
  simpl. induction labels as [|c labels IH]; intros H.
  { by exists []. }
  apply Forall_cons_1 in H as [Hc H].
  destruct (IH H) as (texts & -> & Ht).
  destruct c as [t|]; [|done].
  exists (t :: texts). split; [done|]. by rewrite !fmap_cons, Ht.
Qed.

(** The category order of a text column: sorted, free of duplicates, and
    made of the labels of the column. *)
Lemma sorted_unique_texts (texts : list string) :
  exists order,
    sorted (unique (PyStr <$> texts)) = Ok (PyStr <$> order) /\
    Sorted String.le order /\
    NoDup order /\
    forall t, t ∈ order <-> t ∈ texts.
Proof.
  destruct (unique_str texts) as (u & Hu & Hnd & Hin).
  exists (merge_sort String.le u). split_and!.
  - rewrite Hu. unfold sorted.
    assert (forallb is_str (PyStr <$> u) = true) as ->.
    { apply forallb_forall. intros v Hv%list_elem_of_In.
      by apply list_elem_of_fmap in Hv as (t & -> & _). }
    simpl. f_equal. apply merge_sort_fmap, py_le_str.
  - apply Sorted_merge_sort, _.
  - by rewrite merge_sort_Permutation.
  - intros t. by rewrite merge_sort_Permutation.
Qed.

(** Two sorted lists of distinct strings with the same members are equal. *)
Lemma sorted_order_unique (o1 o2 : list string) :
  Sorted String.le o1 -> NoDup o1 ->
  Sorted String.le o2 -> NoDup o2 ->
  (forall t, t ∈ o1 <-> t ∈ o2) ->
  o1 = o2.
Proof.
  intros S1 N1 S2 N2 H.
  apply (Sorted_unique String.le); [done..|]. by apply NoDup_Permutation.
Qed.

End TextLabels.

Section HybridPlot.

Import Charts.

Implicit Types (df plot_df : DataFrame) (labels cat_data : Series).

Lemma value_listed (value_col category_col : string) :
  value_col ∈ [value_col; category_col].
Proof. by left. Qed.

Lemma category_listed (value_col category_col : string) :
  category_col ∈ [value_col; category_col].
Proof. right. by left. Qed.

(** C6: when no row holds both a value and a category, the chart is the
    placeholder text and the call returns. *)
Theorem hybrid_plot_no_data df value_col category_col title ylabel plot_df :
  dropna [value_col; category_col] df = Ok plot_df ->
  df_empty plot_df = true ->
  create_hybrid_plot df value_col category_col title ylabel
  = Ok [text_center ("No data available for " +:+ title)].
Proof.
  intros Hdrop Hempty. unfold create_hybrid_plot. rewrite Hdrop. simpl.
  by rewrite Hempty.
Qed.

Lemma hybrid_plot_no_data_witness :
  create_hybrid_plot Sample.unpriced "Fee_cleaned" "Ownership"
    "Basic Services Fee" "Fee ($)"
  = Ok [text_center "No data available for Basic Services Fee"].
Proof.
  eapply (hybrid_plot_no_data Sample.unpriced "Fee_cleaned" "Ownership");
    vm_compute; reflexivity.
Defined.

(** *** The rows of a category *)

(** A label that occurs in the filtered table selects at least one of its
    rows, and the selected rows all hold a value. *)
Lemma label_has_rows df value_col category_col plot_df labels cat :
  well_formed df ->
  dropna [value_col; category_col] df = Ok plot_df ->
  plot_df !! category_col = Some labels ->
  cat ∈ tolist labels ->
  exists values,
    plot_df !! value_col = Some values /\
    empty (take (where_ (nrows plot_df) (eq_at labels cat)) values) = false /\
    Forall (fun v => isna v = false) (tolist values).
Proof.
  intros Hwf Hdrop Hlabels Hin.
  destruct (dropna_column _ _ _ category_col _ Hwf Hdrop
              (category_listed _ _) Hlabels)
    as [Hlen Hna].
  destruct (dropna_columns _ _ _ value_col Hdrop (value_listed _ _))
    as (s0 & _ & Hvalues).
  apply getitem_Ok in Hvalues. set (values := take _ s0) in Hvalues.
  destruct (dropna_column _ _ _ value_col _ Hwf Hdrop
              (value_listed _ _) Hvalues)
    as [Hlenv Hnav].
  exists values. split_and!; [done| |done].
  rewrite Forall_forall in Hna. pose proof (Hna _ Hin) as Hcatna.
  apply list_elem_of_lookup in Hin as [j Hj].
  assert (j < nrows plot_df)%nat as Hlt.
  { rewrite <- Hlen, <- len_tolist. by eapply lookup_lt_Some. }
  assert (j ∈ where_ (nrows plot_df) (eq_at labels cat)) as Hjin.
  { apply elem_of_where. split; [done|].
    unfold eq_at. rewrite Hj. by apply py_eq_refl. }
  destruct (lookup_lt_is_Some_2 (tolist values) j) as [w Hw].
  { by rewrite len_tolist, Hlenv. }
  assert (w ∈ tolist (take (where_ (nrows plot_df) (eq_at labels cat)) values))
    as Hwin by (apply elem_of_take; eauto).
  unfold empty. apply bool_decide_eq_false. rewrite <- len_tolist.
  intros Hnil%nil_length_inv. rewrite Hnil in Hwin. by apply elem_of_nil in Hwin.
Qed.

(** The data of a category of the filtered table: it is there, it has a
    row, and none of its entries is missing. *)
Lemma category_data df value_col category_col plot_df labels cat :
  well_formed df ->
  dropna [value_col; category_col] df = Ok plot_df ->
  plot_df !! category_col = Some labels ->
  cat ∈ tolist labels ->
  exists cat_data,
    getitem (df_where plot_df (eq_at labels cat)) value_col = Ok cat_data /\
    empty cat_data = false /\
    Forall (fun v => isna v = false) (tolist cat_data).
Proof.
  intros Hwf Hdrop Hlabels Hin.
  destruct (label_has_rows _ _ _ _ _ _ Hwf Hdrop Hlabels Hin)
    as (values & Hvalues & Hne & Hna).
  exists (take (where_ (nrows plot_df) (eq_at labels cat)) values).
  split_and!; [by apply getitem_df_where|done|].
  apply Forall_forall. intros v (i & _ & Hv)%elem_of_take.
  rewrite Forall_forall in Hna. apply Hna.
  apply list_elem_of_lookup. eauto.
Qed.

Lemma where_nil n cond :
  where_ n cond = [] <-> forall i, (i < n)%nat -> cond i = false.
Proof.
  split.
  - intros Hnil i Hi. destruct (cond i) eqn:E; [|done].
    assert (i ∈ where_ n cond) as Hin by by apply elem_of_where.
    rewrite Hnil in Hin. by apply elem_of_nil in Hin.
  - intros H. destruct (where_ n cond) as [|i l] eqn:E; [done|].
    assert (i ∈ where_ n cond) as [Hi Hc]%elem_of_where by (rewrite E; left).
    rewrite H in Hc by done. discriminate.
Qed.

(** A selection of rows of a table with at least one column is empty when
    no row is selected. *)
Lemma df_empty_where df cond c s :
  df !! c = Some s ->
  df_empty (df_where df cond) = bool_decide (where_ (nrows df) cond = []).
Proof.
  intros Hs. unfold df_empty, df_where, df_take. cbn.
  apply bool_decide_ext. rewrite length_zero_iff_nil. split; [|by left].
  intros [?|Hempty]; [done|]. apply fmap_empty_inv in Hempty.
  unfold lookup, dataframe_lookup in Hs. rewrite Hempty in Hs.
  by rewrite lookup_empty in Hs.
Qed.

Lemma nunique_pos s :
  len s ≠ 0%nat ->
  Forall (fun v => isna v = false) (tolist s) ->
  nunique s ≠ 0%nat.
Proof.
  intros Hlen Hna. unfold nunique. rewrite <- len_tolist in Hlen.
  destruct (tolist s) as [|v l]; [done|].
  apply Forall_cons_1 in Hna as [Hv _].
  rewrite filter_cons_True by done. cbn. done.
Qed.

(** The labels of a filtered table that has rows: there is a category. *)
Lemma labels_of_rows df value_col category_col plot_df :
  well_formed df ->
  dropna [value_col; category_col] df = Ok plot_df ->
  df_empty plot_df = false ->
  exists labels,
    getitem plot_df category_col = Ok labels /\
    nunique labels ≠ 0%nat.
Proof.
  intros Hwf Hdrop Hrows.
  destruct (dropna_columns _ _ _ category_col Hdrop (category_listed _ _))
    as (s0 & _ & Hget).
  eexists. split; [exact Hget|].
  apply getitem_Ok in Hget.
  destruct (dropna_column _ _ _ category_col _ Hwf Hdrop
              (category_listed _ _) Hget) as [Hlen Hna].
  apply nunique_pos; [|done]. rewrite Hlen.
  apply bool_decide_eq_false in Hrows. tauto.
Qed.

(** Rows with a given text label are selected exactly when the label
    occurs in the column. *)
Lemma label_rows plot_df category_col labels t :
  plot_df !! category_col = Some labels ->
  len labels = nrows plot_df ->
  negb (df_empty (df_where plot_df (eq_at labels (PyStr t))))
  = bool_decide (PyStr t ∈ tolist labels).
Proof.
  intros Hlabels Hlen. rewrite (df_empty_where _ _ _ _ Hlabels).
  destruct (bool_decide (PyStr t ∈ _)) eqn:Hin.
  - apply bool_decide_eq_true in Hin. apply negb_true_iff, bool_decide_eq_false.
    rewrite where_nil. intros Hnone.
    apply list_elem_of_lookup in Hin as [i Hi].
    specialize (Hnone i). unfold eq_at in Hnone. rewrite Hi in Hnone.
    rewrite py_eq_refl in Hnone by done.
    assert (i < nrows plot_df)%nat as Hlt.
    { rewrite <- Hlen, <- len_tolist. by eapply lookup_lt_Some. }
    by specialize (Hnone Hlt).
  - apply bool_decide_eq_false in Hin. apply negb_false_iff, bool_decide_eq_true.
    apply where_nil. intros i _. unfold eq_at.
    destruct (tolist labels !! i) as [v|] eqn:Hv; [|done].
    destruct (py_eq v (PyStr t)) eqn:Heq; [|done].
    apply py_eq_str in Heq as ->. exfalso. apply Hin.
    by eapply list_elem_of_lookup_2.
Qed.

Lemma text_label (kept : list cell) t :
  PyStr t ∈ tolist (Object kept) <-> Text t ∈ kept.
Proof.
  cbn. rewrite list_elem_of_fmap. split.
  - intros ([t'|] & [=] & ?). congruence.
  - intros ?. by exists (Text t).
Qed.

(** X6: [create_hybrid_plot] draws the placeholder exactly when no row of
    the table holds both a value and a category.  A filtered table with a
    row always has a category, so the second half of the test of the
    function, [nunique() == 0], never decides. *)
Theorem hybrid_plot_placeholder_iff
    df value_col category_col title ylabel plot_df :
  well_formed df ->
  dropna [value_col; category_col] df = Ok plot_df ->
  (create_hybrid_plot df value_col category_col title ylabel
   = Ok [text_center ("No data available for " +:+ title)]
   <-> df_empty plot_df = true) /\
  (df_empty plot_df = true
   <-> forall i, (i < nrows df)%nat ->
         holds_all [value_col; category_col] df i = false) /\
  (forall labels,
     df_empty plot_df = false ->
     getitem plot_df category_col = Ok labels ->
     nunique labels ≠ 0%nat).
Proof.
  intros Hwf Hdrop. split_and!.
  - unfold create_hybrid_plot. rewrite Hdrop. cbn [mbind result_bind].
    destruct (df_empty plot_df) eqn:Hrows; [done|].
    destruct (labels_of_rows _ _ _ _ Hwf Hdrop Hrows) as (labels & -> & Hn).
    cbn [mbind result_bind]. rewrite bool_decide_eq_false_2 by done.
    split; [|done].
    destruct (sorted _) as [order|]; [|done]. cbn [mbind result_bind].
    destruct (annotate_categories _ _ _ _ _) as [annotations|]; [|done].
    cbn [mbind result_bind]. intros [= H].
    apply (f_equal length) in H. rewrite !length_app in H. cbn in H.
    rewrite length_app in H. cbn in H. lia.
  - destruct (dropna_Ok _ _ _ Hdrop) as [Hcols ->].
    apply Forall_cons_1 in Hcols as [[s Hs] _].
    rewrite (df_empty_where _ _ _ _ Hs), bool_decide_eq_true.
    apply where_nil.
  - intros labels Hrows Hlabels.
    destruct (labels_of_rows _ _ _ _ Hwf Hdrop Hrows) as (labels' & Hl & Hn).
    congruence.
Qed.

Lemma hybrid_plot_placeholder_iff_witness :
  (create_hybrid_plot Sample.unpriced "Fee_cleaned" "Ownership" "Fee" "Fee ($)"
   = Ok [text_center "No data available for Fee"]
   <-> df_empty (df_where Sample.unpriced
                   (holds_all ["Fee_cleaned"; "Ownership"] Sample.unpriced))
       = true) /\
  (df_empty (df_where Sample.unpriced
               (holds_all ["Fee_cleaned"; "Ownership"] Sample.unpriced)) = true
   <-> forall i, (i < 2)%nat ->
         holds_all ["Fee_cleaned"; "Ownership"] Sample.unpriced i = false).
Proof.
  destruct (hybrid_plot_placeholder_iff Sample.unpriced "Fee_cleaned" "Ownership"
              "Fee" "Fee ($)"
              (df_where Sample.unpriced
                 (holds_all ["Fee_cleaned"; "Ownership"] Sample.unpriced)))
    as (H1 & H2 & _).
  - by_computation.
  - vm_compute. reflexivity.
  - split; [exact H1|exact H2].
Defined.

(** *** The annotations of a category *)

Lemma take_numeric idx (s : Series) :
  is_numeric_dtype (take idx s) = is_numeric_dtype s.
Proof. by destruct s. Qed.

(** The loop body on a category with data in a numeric column. *)
Lemma annotate_category_group
    plot_df value_col category_col labels t cat_data (i : nat) :
  getitem plot_df category_col = Ok labels ->
  getitem (df_where plot_df (eq_at labels (PyStr t))) value_col = Ok cat_data ->
  is_numeric_dtype cat_data = true ->
  empty cat_data = false ->
  exists group,
    annotate_category plot_df value_col category_col i (PyStr t) = Ok group /\
    category_group cat_data i t group.
Proof.
  intros Hlabels Hdata Hnum Hne.
  assert (exists v l, tolist cat_data = v :: l) as (v & l & Hv).
  { apply bool_decide_eq_false in Hne. rewrite <- len_tolist in Hne.
    destruct (tolist cat_data); [done|eauto]. }
  assert (is_str v = false) as Hvnum.
  { eapply tolist_numeric; [done|]. rewrite Hv. by left. }
  destruct (format_0f_numeric v Hvnum) as [single_label Hsl].
  destruct (median_numeric cat_data Hnum) as [m Hm].
  destruct (format_0f_numeric (PyFloat m) eq_refl) as [median_label Hml].
  destruct (format_0f_numeric _ (extremum_numeric (fun a b => py_lt b a) _ Hnum))
    as [max_label Hmax].
  destruct (format_0f_numeric _ (extremum_numeric py_lt _ Hnum))
    as [min_label Hmin].
  assert (iloc0 cat_data = Ok v) as Hiloc by (unfold iloc0; by rewrite Hv).
  eexists. split; [|exists v, (PyFloat m), single_label, median_label,
                      max_label, min_label; split_and!; try done].
  unfold annotate_category. rewrite Hlabels. cbn [mbind result_bind].
  rewrite Hdata. cbn [mbind result_bind]. rewrite Hne.
  cbn [py_eq].
  destruct (bool_decide (t = "FPG Beers & Story" /\ _)) eqn:Hcase.
  - apply bool_decide_eq_true in Hcase as [-> Hone].
    rewrite (bool_decide_eq_true_2 _ Hone), bool_decide_eq_true_2 by done.
    cbn [andb]. rewrite Hiloc. cbn [mbind result_bind]. by rewrite Hsl.
  - apply bool_decide_eq_false in Hcase.
    assert (bool_decide (t = "FPG Beers & Story")
            && bool_decide (nunique cat_data = 1%nat) = false) as ->.
    { apply andb_false_iff.
      destruct (bool_decide (t = "FPG Beers & Story")) eqn:Heq; [|by left].
      right. apply bool_decide_eq_false. apply bool_decide_eq_true in Heq.
      tauto. }
    rewrite Hm. cbn [mbind result_bind]. rewrite Hml. unfold max, min in *.
    cbn [mbind result_bind]. rewrite Hmax. cbn [mbind result_bind].
    by rewrite Hmin.
Qed.

(** The loop over the categories of a filtered table with a numeric value
    column: each category has data and receives its annotations, at its
    position in the order. *)
Lemma annotate_categories_groups
    df value_col category_col plot_df labels (values : Series)
    (order : list string) (i : nat) :
  well_formed df ->
  dropna [value_col; category_col] df = Ok plot_df ->
  plot_df !! category_col = Some labels ->
  plot_df !! value_col = Some values ->
  is_numeric_dtype values = true ->
  Forall (fun t => PyStr t ∈ tolist labels) order ->
  exists groups : list (list call),
    annotate_categories plot_df value_col category_col i (PyStr <$> order)
    = Ok (concat groups) /\
    length groups = length order /\
    forall (j : nat) t, order !! j = Some t ->
      exists cat_data group,
        getitem (df_where plot_df (eq_at labels (PyStr t))) value_col
        = Ok cat_data /\
        empty cat_data = false /\
        groups !! j = Some group /\
        category_group cat_data (i + j) t group.
Proof.
  intros Hwf Hdrop Hlabels Hvalues Hnum Horder. revert i.
  induction Horder as [|t order Ht _ IH]; intros i.
  { exists []. split_and!; [done..|]. intros j t. by rewrite lookup_nil. }
  destruct (category_data _ _ _ _ _ _ Hwf Hdrop Hlabels Ht)
    as (cat_data & Hdata & Hne & _).
  assert (is_numeric_dtype cat_data = true) as Hcat.
  { rewrite (getitem_df_where _ _ _ _ Hvalues) in Hdata.
    injection Hdata as <-. by rewrite take_numeric. }
  destruct (annotate_category_group plot_df value_col category_col labels t
              cat_data i (proj2 (getitem_Ok _ _ _) Hlabels) Hdata Hcat Hne)
    as (group & Hgroup & Hshape).
  destruct (IH (S i)) as (groups & Hrest & Hlen & Hall).
  exists (group :: groups). split_and!.
  - rewrite fmap_cons. cbn [annotate_categories]. rewrite Hgroup.
    cbn [mbind result_bind]. rewrite Hrest. done.
  - cbn. by rewrite Hlen.
  - intros [|j] t' Hj.
    + injection Hj as <-. exists cat_data, group. rewrite Nat.add_0_r. done.
    + destruct (Hall j t' Hj) as (cat_data' & group' & ? & ? & ? & Hshape').
      exists cat_data', group'. rewrite Nat.add_succ_r. done.
Qed.

(** The calls of the annotation loop are ticks and annotations. *)
Lemma annotate_category_calls plot_df value_col category_col (i : nat) cat calls :
  annotate_category plot_df value_col category_col i cat = Ok calls ->
  Forall (fun call => is_annotation call = true) calls.
Proof.
  unfold annotate_category.
  destruct (getitem plot_df category_col) as [labels|]; [|done].
  cbn [mbind result_bind].
  destruct (getitem _ value_col) as [cat_data|]; [|done].
  cbn [mbind result_bind].
  destruct (empty cat_data); [by intros [= <-]|].
  destruct (_ && _).
  - destruct (iloc0 cat_data) as [single_val|]; [|done]. cbn [mbind result_bind].
    destruct (format_0f single_val); [|done]. cbn [mbind result_bind].
    intros [= <-]. by repeat constructor.
  - destruct (median cat_data) as [median_val|]; [|done]. cbn [mbind result_bind].
    destruct (format_0f median_val); [|done]. cbn [mbind result_bind].
    destruct (format_0f (max cat_data)); [|done]. cbn [mbind result_bind].
    destruct (format_0f (min cat_data)); [|done]. cbn [mbind result_bind].
    intros [= <-]. by repeat constructor.
Qed.

Lemma annotate_categories_calls
    plot_df value_col category_col (i : nat) order calls :
  annotate_categories plot_df value_col category_col i order = Ok calls ->
  Forall (fun call => is_annotation call = true) calls.
Proof.
  revert i calls. induction order as [|cat order IH]; intros i calls.
  { by intros [= <-]. }
  cbn [annotate_categories].
  destruct (annotate_category _ _ _ i cat) as [here|] eqn:Hhere; [|done].
  cbn [mbind result_bind].
  destruct (annotate_categories _ _ _ (S i) order) as [later|] eqn:Hlater;
    [|done].
  cbn [mbind result_bind]. intros [= <-]. apply Forall_app. split.
  - by eapply annotate_category_calls.
  - by eapply IH.
Qed.

(** *** The guard of the loop *)

(** On the categories of the filtered table the loop is the loop without
    its guard. *)
Lemma guard_never_decides
    df value_col category_col plot_df labels order (i : nat) :
  well_formed df ->
  dropna [value_col; category_col] df = Ok plot_df ->
  plot_df !! category_col = Some labels ->
  Forall (fun cat => cat ∈ tolist labels) order ->
  annotate_categories plot_df value_col category_col i order
  = annotate_categories_without_guard plot_df value_col category_col i order.
Proof.
  intros Hwf Hdrop Hlabels Horder. revert i.
  induction Horder as [|cat order Hcat _ IH]; intros i; [done|].
  cbn [annotate_categories annotate_categories_without_guard].
  rewrite IH. f_equal.
  destruct (category_data _ _ _ _ _ _ Hwf Hdrop Hlabels Hcat)
    as (cat_data & Hdata & Hne & _).
  unfold annotate_category, annotate_category_without_guard.
  rewrite (proj2 (getitem_Ok _ _ _) Hlabels). cbn [mbind result_bind].
  rewrite Hdata. cbn [mbind result_bind]. by rewrite Hne.
Qed.

(** The category order the function computes holds labels of the filtered
    table only. *)
Lemma category_order_labels labels order :
  sorted (unique (tolist labels)) = Ok order ->
  Forall (fun cat => cat ∈ tolist labels) order.
Proof.
  intros Hsorted. apply Forall_forall. intros cat Hcat.
  eauto using elem_of_sorted, elem_of_unique.
Qed.

(** C10: the guard [if cat_data.empty: continue] of the annotation loop
    never decides.  For every table, [create_hybrid_plot] returns what it
    returns with the guard taken out; and when it draws the chart, every
    category of the order it draws has, in the table it draws, at least one
    row, and each of its rows holds a value. *)
Theorem category_data_not_empty df value_col category_col title ylabel :
  well_formed df ->
  create_hybrid_plot df value_col category_col title ylabel
  = create_hybrid_plot_without_guard df value_col category_col title ylabel /\
  forall calls data order,
    create_hybrid_plot df value_col category_col title ylabel = Ok calls ->
    swarmplot data category_col value_col order ∈ calls ->
    dropna [value_col; category_col] df = Ok data /\
    forall cat, cat ∈ order ->
      exists labels cat_data,
        getitem data category_col = Ok labels /\
        getitem (df_where data (eq_at labels cat)) value_col = Ok cat_data /\
        empty cat_data = false /\
        Forall (fun v => isna v = false) (tolist cat_data).
Proof.
  intros Hwf.
  unfold create_hybrid_plot, create_hybrid_plot_without_guard.
  destruct (dropna [value_col; category_col] df) as [plot_df|e] eqn:Hdrop;
    [|split; [done|by intros ??? [=]]].
  cbn [mbind result_bind].
  destruct (df_empty plot_df) eqn:Hrows.
  { cbn [mbind result_bind]. split; [done|].
    intros calls data order [= <-] Hin.
    apply list_elem_of_singleton in Hin. discriminate. }
  destruct (labels_of_rows _ _ _ _ Hwf Hdrop Hrows) as (labels & Hget & Hn).
  rewrite Hget. cbn [mbind result_bind].
  rewrite bool_decide_eq_false_2 by done.
  destruct (sorted (unique (tolist labels))) as [category_order|e] eqn:Hsorted;
    [|split; [done|by intros ??? [=]]].
  cbn [mbind result_bind].
  pose proof Hget as Hlabels. apply getitem_Ok in Hlabels.
  pose proof (category_order_labels _ _ Hsorted) as Horder.
  rewrite <- (guard_never_decides df _ _ _ labels category_order 0
                Hwf Hdrop Hlabels Horder).
  split; [done|].
  destruct (annotate_categories _ _ _ 0 category_order) as [annotations|] eqn:Hann;
    [|by intros ??? [=]].
  cbn [mbind result_bind]. intros calls data order [= <-] Hin.
  assert (data = plot_df /\ order = category_order) as [-> ->].
  { apply elem_of_app in Hin as [Hin|Hin].
    { destruct (negb _); [|by apply elem_of_nil in Hin].
      apply list_elem_of_singleton in Hin. discriminate. }
    apply elem_of_cons in Hin as [Hin|Hin]; [by injection Hin as -> ->|].
    apply elem_of_app in Hin as [Hin|Hin].
    - apply annotate_categories_calls in Hann. rewrite Forall_forall in Hann.
      by specialize (Hann _ Hin).
    - set_unfold in Hin. destruct Hin as [|[|[|[]]]]; discriminate. }
  split; [done|]. intros cat Hcat. rewrite Forall_forall in Horder.
  destruct (category_data _ _ _ _ _ _ Hwf Hdrop Hlabels (Horder _ Hcat))
    as (cat_data & ? & ? & ?).
  by exists labels, cat_data.
Qed.

Lemma category_data_not_empty_witness :
  create_hybrid_plot Sample.priced "Fee_cleaned" "Ownership" "Fee" "Fee ($)"
  = create_hybrid_plot_without_guard Sample.priced "Fee_cleaned" "Ownership"
      "Fee" "Fee ($)" /\
  exists labels cat_data,
    getitem Sample.priced_rows "Ownership" = Ok labels /\
    getitem (df_where Sample.priced_rows (eq_at labels (PyStr "SCI")))
      "Fee_cleaned" = Ok cat_data /\
    empty cat_data = false.
Proof.
  destruct (category_data_not_empty Sample.priced "Fee_cleaned" "Ownership"
              "Fee" "Fee ($)") as [Hsame Hrows].
  - by_computation.
  - split; [exact Hsame|].
    assert (exists calls,
              create_hybrid_plot Sample.priced "Fee_cleaned" "Ownership" "Fee"
                "Fee ($)" = Ok calls /\
              swarmplot Sample.priced_rows "Ownership" "Fee_cleaned"
                [PyStr "FPG Beers & Story"; PyStr "Independent"; PyStr "SCI"]
              ∈ calls) as (calls & Hplot & Hin).
    { eexists. split; [vm_compute; reflexivity|].
      apply elem_of_cons. right. apply elem_of_cons. left.
      vm_compute. reflexivity. }
    destruct (Hrows calls _ _ Hplot Hin) as [_ Hcat].
    destruct (Hcat (PyStr "SCI")) as (labels & cat_data & ? & ? & ? & _).
    { by_computation. }
    exists labels, cat_data. split_and!; assumption.
Defined.

(** *** The chart *)

(** The category order of a table with a text category column. *)
Lemma category_order_texts df value_col category_col plot_df
    (labels : list cell) :
  well_formed df ->
  dropna [value_col; category_col] df = Ok plot_df ->
  getitem plot_df category_col = Ok (Object labels) ->
  exists order,
    sorted (unique (tolist (Object labels))) = Ok (PyStr <$> order) /\
    Sorted String.le order /\
    NoDup order /\
    forall t, t ∈ order <-> PyStr t ∈ tolist (Object labels).
Proof.
  intros Hwf Hdrop Hlabels. apply getitem_Ok in Hlabels.
  destruct (dropna_column _ _ _ category_col _ Hwf Hdrop
              (category_listed _ _) Hlabels)
    as [_ Hna].
  destruct (object_texts labels Hna) as (texts & -> & Htexts).
  destruct (sorted_unique_texts texts) as (order & Hsorted & Hs & Hnd & Hin).
  exists order. rewrite Htexts. split_and!; try done.
  intros t. rewrite Hin, list_elem_of_fmap. split.
  - intros ?. by exists t.
  - by intros (t' & [= ->] & ?).
Qed.

(** What [create_hybrid_plot] draws for a table with rows, a numeric value
    column and a text category column: the violin of the independent homes
    when there are any, the swarm, the annotations of each category in the
    order of the x axis, and the title and axis labels.  The order is the
    sorted list of the distinct labels of the filtered rows. *)
Lemma hybrid_plot_chart
    df value_col category_col title ylabel plot_df
    (kept : list cell) (values : Series) :
  well_formed df ->
  dropna [value_col; category_col] df = Ok plot_df ->
  df_empty plot_df = false ->
  getitem plot_df category_col = Ok (Object kept) ->
  getitem plot_df value_col = Ok values ->
  is_numeric_dtype values = true ->
  exists (order : list string) (groups : list (list call)),
    Sorted String.le order /\
    NoDup order /\
    (forall t, t ∈ order <-> Text t ∈ kept) /\
    length groups = length order /\
    (forall (i : nat) t, order !! i = Some t ->
       exists cat_data group,
         getitem (df_where plot_df (eq_at (Object kept) (PyStr t))) value_col
         = Ok cat_data /\
         empty cat_data = false /\
         groups !! i = Some group /\
         category_group cat_data i t group) /\
    create_hybrid_plot df value_col category_col title ylabel
    = Ok ((if bool_decide (Text "Independent" ∈ kept)
           then [violinplot
                   (df_where plot_df (eq_at (Object kept) (PyStr "Independent")))
                   category_col value_col (PyStr <$> order)]
           else [])
          ++ swarmplot plot_df category_col value_col (PyStr <$> order)
          :: concat groups
          ++ [set_title title; set_xlabel category_col; set_ylabel ylabel]).
Proof.
  intros Hwf Hdrop Hrows Hlabels Hvalues Hnum.
  destruct (category_order_texts _ _ _ _ _ Hwf Hdrop Hlabels)
    as (order & Hsorted & Hs & Hnd & Hin).
  pose proof Hlabels as Hl. apply getitem_Ok in Hl.
  pose proof Hvalues as Hv. apply getitem_Ok in Hv.
  destruct (dropna_column _ _ _ category_col _ Hwf Hdrop
              (category_listed _ _) Hl) as [Hlen _].
  destruct (annotate_categories_groups df value_col category_col plot_df
              (Object kept) values order 0 Hwf Hdrop Hl Hv Hnum)
    as (groups & Hann & Hcount & Hgroups).
  { apply Forall_forall. intros t Ht. by apply Hin. }
  exists order, groups. split_and!.
  - done.
  - done.
  - intros t. by rewrite Hin, text_label.
  - done.
  - exact Hgroups.
  - destruct (labels_of_rows _ _ _ _ Hwf Hdrop Hrows) as (labels' & Hl' & Hn).
    assert (labels' = Object kept) as -> by congruence.
    unfold create_hybrid_plot. rewrite Hdrop. cbn [mbind result_bind].
    rewrite Hrows, Hlabels. cbn [mbind result_bind].
    rewrite bool_decide_eq_false_2 by done. rewrite Hsorted.
    cbn [mbind result_bind]. rewrite Hann. cbn [mbind result_bind].
    rewrite (label_rows _ _ _ _ Hl Hlen). do 2 f_equal.
    by rewrite (bool_decide_ext _ _ (text_label kept "Independent")).
Qed.

(** The filtered table of a table whose rows are reordered: it has rows, a
    text category column with the same labels, and a numeric value column. *)
Lemma hybrid_plot_reordered
    df value_col category_col plot_df (kept : list cell) (values : Series) p :
  well_formed df ->
  dropna [value_col; category_col] df = Ok plot_df ->
  df_empty plot_df = false ->
  getitem plot_df category_col = Ok (Object kept) ->
  getitem plot_df value_col = Ok values ->
  is_numeric_dtype values = true ->
  p ≡ₚ seq 0 (nrows df) ->
  exists plot_df' (kept' : list cell) (values' : Series),
    well_formed (df_take p df) /\
    dropna [value_col; category_col] (df_take p df) = Ok plot_df' /\
    df_empty plot_df' = false /\
    getitem plot_df' category_col = Ok (Object kept') /\
    getitem plot_df' value_col = Ok values' /\
    is_numeric_dtype values' = true /\
    forall t, Text t ∈ kept' <-> Text t ∈ kept.
Proof.
  intros Hwf Hdrop Hrows Hlabels Hvalues Hnum Hp.
  pose proof (permutation_lt _ _ Hp) as Hlt.
  pose proof (well_formed_take p df Hwf Hlt) as Hwf'.
  destruct (dropna_Ok _ _ _ Hdrop) as [Hcols Hplot].
  set (cond' := holds_all [value_col; category_col] (df_take p df)).
  assert (dropna [value_col; category_col] (df_take p df)
          = Ok (df_where (df_take p df) cond')) as Hdrop'.
  { apply dropna_is_Ok. eapply Forall_impl; [exact Hcols|].
    intros c [s Hs']. rewrite lookup_df_take, Hs'. by eexists. }
  destruct (dropna_columns _ _ _ category_col Hdrop (category_listed _ _))
    as (sc & Hsc & Hget).
  rewrite Hlabels in Hget. injection Hget as Hget.
  destruct sc as [?|?|?|cs]; try discriminate.
  destruct (dropna_columns _ _ _ value_col Hdrop (value_listed _ _))
    as (sv & Hsv & Hgetv).
  rewrite Hvalues in Hgetv. injection Hgetv as Hgetv.
  assert (is_numeric_dtype sv = true) as Hnumv
    by (rewrite Hgetv, take_numeric in Hnum; exact Hnum).
  set (kept' := omap (fun i => omap (fun i0 => cs !! i0) p !! i)
                  (where_ (length p) cond')).
  assert (getitem (df_where (df_take p df) cond') category_col
          = Ok (Object kept')) as Hget'.
  { rewrite (getitem_df_where (df_take p df) _ category_col (take p (Object cs)));
      [done|].
    by rewrite lookup_df_take, Hsc. }
  assert (forall t, Text t ∈ kept' <-> Text t ∈ kept) as Hsame.
  { intros t. rewrite <- !text_label, Hget.
    apply (dropna_take_values _ df p category_col (Object cs)); done. }
  exists (df_where (df_take p df) cond'), kept',
    (take (where_ (length p) cond') (take p sv)).
  split_and!; try done.
  - destruct (labels_of_rows _ _ _ _ Hwf Hdrop Hrows) as (labels0 & Hl0 & Hn0).
    assert (labels0 = Object kept) as -> by congruence.
    assert (exists t, Text t ∈ kept) as [t Ht].
    { apply getitem_Ok in Hlabels.
      destruct (dropna_column _ _ _ category_col _ Hwf Hdrop
                  (category_listed _ _) Hlabels) as [Hlen Hna].
      destruct kept as [|[t|] kept0].
      - apply bool_decide_eq_false in Hrows. cbn in Hlen. tauto.
      - exists t. by left.
      - by apply Forall_cons_1 in Hna as [? _]. }
    apply Hsame in Ht. apply text_label in Ht.
    apply bool_decide_eq_false. intros [Hzero|Hnone].
    + change (length (where_ (length p) cond') = 0%nat) in Hzero.
      apply length_zero_iff_nil in Hzero.
      unfold kept' in Ht. rewrite Hzero in Ht. by apply elem_of_nil in Ht.
    + unfold df_where, df_take in Hnone. cbn [columns] in Hnone.
      apply fmap_empty_inv, fmap_empty_inv in Hnone.
      unfold lookup, dataframe_lookup in Hsc. rewrite Hnone in Hsc.
      by rewrite lookup_empty in Hsc.
  - apply getitem_df_where. by rewrite lookup_df_take, Hsv.
  - by rewrite !take_numeric.
Qed.



(** C5: in [create_hybrid_plot], for a table with rows, a numeric value
    column and a text category column, the order given to the violin and to
    the swarm, which is the order of the x axis, is the list of the distinct
    category labels of the filtered rows sorted by code point; and the
    function draws with the same order when the rows of the table are
    reordered. *)
Theorem category_order_lexicographic
    df value_col category_col title ylabel plot_df
    (kept : list cell) (values : Series) :
  well_formed df ->
  dropna [value_col; category_col] df = Ok plot_df ->
  df_empty plot_df = false ->
  getitem plot_df category_col = Ok (Object kept) ->
  getitem plot_df value_col = Ok values ->
  is_numeric_dtype values = true ->
  exists (order : list string) (annotations : list call),
    create_hybrid_plot df value_col category_col title ylabel
    = Ok ((if bool_decide (Text "Independent" ∈ kept)
           then [violinplot
                   (df_where plot_df (eq_at (Object kept) (PyStr "Independent")))
                   category_col value_col (PyStr <$> order)]
           else [])
          ++ swarmplot plot_df category_col value_col (PyStr <$> order)
          :: annotations
          ++ [set_title title; set_xlabel category_col; set_ylabel ylabel]) /\
    Sorted String.le order /\
    NoDup order /\
    (forall t, t ∈ order <-> Text t ∈ kept) /\
    forall p, p ≡ₚ seq 0 (nrows df) ->
      exists plot_df' (kept' : list cell) (annotations' : list call),
        dropna [value_col; category_col] (df_take p df) = Ok plot_df' /\
        getitem plot_df' category_col = Ok (Object kept') /\
        create_hybrid_plot (df_take p df) value_col category_col title ylabel
        = Ok ((if bool_decide (Text "Independent" ∈ kept')
               then [violinplot
                       (df_where plot_df'
                          (eq_at (Object kept') (PyStr "Independent")))
                       category_col value_col (PyStr <$> order)]
               else [])
              ++ swarmplot plot_df' category_col value_col (PyStr <$> order)
              :: annotations'
              ++ [set_title title; set_xlabel category_col; set_ylabel ylabel]).
Proof.
  intros Hwf Hdrop Hrows Hlabels Hvalues Hnum.
  destruct (hybrid_plot_chart df value_col category_col title ylabel plot_df
              kept values Hwf Hdrop Hrows Hlabels Hvalues Hnum)
    as (order & groups & Hs & Hnd & Hin & _ & _ & Hplot).
  exists order, (concat groups). split_and!; [done..|].
  intros p Hp.
  destruct (hybrid_plot_reordered df value_col category_col plot_df kept values
              p Hwf Hdrop Hrows Hlabels Hvalues Hnum Hp)
    as (plot_df' & kept' & values' & Hwf' & Hdrop' & Hrows' & Hlabels'
        & Hvalues' & Hnum' & Hsame).
  destruct (hybrid_plot_chart (df_take p df) value_col category_col title ylabel
              plot_df' kept' values' Hwf' Hdrop' Hrows' Hlabels' Hvalues' Hnum')
    as (order' & groups' & Hs' & Hnd' & Hin' & _ & _ & Hplot').
  assert (order' = order) as ->.
  { apply sorted_order_unique; try done.
    intros t. by rewrite Hin, Hin', Hsame. }
  by exists plot_df', kept', (concat groups').
Qed.

Lemma category_order_lexicographic_witness :
  exists (order : list string) (annotations : list call),
    create_hybrid_plot Sample.priced "Fee_cleaned" "Ownership" "Fee" "Fee ($)"
    = Ok ((if bool_decide (Text "Independent" ∈ Sample.priced_labels)
           then [violinplot
                   (df_where Sample.priced_rows
                      (eq_at (Object Sample.priced_labels) (PyStr "Independent")))
                   "Ownership" "Fee_cleaned" (PyStr <$> order)]
           else [])
          ++ swarmplot Sample.priced_rows "Ownership" "Fee_cleaned"
               (PyStr <$> order)
          :: annotations
          ++ [set_title "Fee"; set_xlabel "Ownership"; set_ylabel "Fee ($)"]) /\
    Sorted String.le order /\
    exists plot_df' (kept' : list cell) (annotations' : list call),
      create_hybrid_plot (df_take [4; 2; 0; 1; 3]%nat Sample.priced)
        "Fee_cleaned" "Ownership" "Fee" "Fee ($)"
      = Ok ((if bool_decide (Text "Independent" ∈ kept')
             then [violinplot
                     (df_where plot_df'
                        (eq_at (Object kept') (PyStr "Independent")))
                     "Ownership" "Fee_cleaned" (PyStr <$> order)]
             else [])
            ++ swarmplot plot_df' "Ownership" "Fee_cleaned" (PyStr <$> order)
            :: annotations'
            ++ [set_title "Fee"; set_xlabel "Ownership"; set_ylabel "Fee ($)"]).
Proof.
  destruct (category_order_lexicographic Sample.priced "Fee_cleaned" "Ownership"
              "Fee" "Fee ($)" Sample.priced_rows Sample.priced_labels
              (Float64 [F64.of_Z 1000; F64.of_Z 2500; F64.of_Z 1895]))
    as (order & annotations & Hplot & Hs & _ & _ & Hperm).
  - by_computation.
  - vm_compute. reflexivity.
  - vm_compute. reflexivity.
  - vm_compute. reflexivity.
  - vm_compute. reflexivity.
  - reflexivity.
  - exists order, annotations. split; [exact Hplot|]. split; [exact Hs|].
    destruct (Hperm [4; 2; 0; 1; 3]%nat)
      as (plot_df' & kept' & annotations' & _ & _ & Hplot').
    { by_computation. }
    exists plot_df', kept', annotations'. exact Hplot'.
Defined.

(** *** The chart of a table with numbers and text labels

    With a numeric value column and a text category column the function
    returns: no step of it raises. *)

Lemma hybrid_plot_returns
    df value_col category_col title ylabel (values : Series)
    (cells : list cell) :
  well_formed df ->
  df !! value_col = Some values ->
  is_numeric_dtype values = true ->
  df !! category_col = Some (Object cells) ->
  exists calls,
    create_hybrid_plot df value_col category_col title ylabel = Ok calls.
Proof.
  intros Hwf Hvalues Hnum Hcells.
  assert (dropna [value_col; category_col] df
          = Ok (df_where df (holds_all [value_col; category_col] df))) as Hdrop.
  { apply dropna_is_Ok. repeat constructor; by eexists. }
  set (plot_df := df_where df _) in *.
  destruct (df_empty plot_df) eqn:Hrows.
  { unfold create_hybrid_plot. rewrite Hdrop. cbn [mbind result_bind].
    rewrite Hrows. by eexists. }
  destruct (hybrid_plot_chart df value_col category_col title ylabel plot_df
              (omap (fun i => cells !! i)
                 (where_ (nrows df) (holds_all [value_col; category_col] df)))
              (take (where_ (nrows df) (holds_all [value_col; category_col] df))
                 values))
    as (order & groups & _ & _ & _ & _ & _ & ->); try done.
  - by apply (getitem_df_where df _ category_col (Object cells)).
  - by apply getitem_df_where.
  - by rewrite take_numeric.
  - by eexists.
Qed.

End HybridPlot.

(** ** The run of Pipeline A on a file with a missing column *)

Section Main.

Import Charts.

(** A column that [dropna] is asked about and that the table does not have
    is an error; the call does not return a table. *)
Lemma dropna_missing_column subset df c :
  c ∈ subset -> df !! c = None ->
  exists msg, dropna subset df = Raise (KeyError msg).
Proof.
  intros Hc Hnone. unfold dropna.
  destruct (filter _ subset) as [|c' l] eqn:E; [|by eexists].
  assert (c ∈ filter (fun c => df !! c = None) subset) as Hin
    by by apply list_elem_of_filter.
  rewrite E in Hin. by apply elem_of_nil in Hin.
Qed.

(** So a hybrid chart with an absent column raises instead of drawing its
    placeholder. *)
Lemma hybrid_plot_missing_column df value_col category_col title ylabel c :
  c ∈ [value_col; category_col] ->
  df !! c = None ->
  exists msg,
    create_hybrid_plot df value_col category_col title ylabel
    = Raise (KeyError msg).
Proof.
  intros Hc Hnone. unfold create_hybrid_plot.
  destruct (dropna_missing_column [value_col; category_col] df c Hc Hnone)
    as [msg ->].
  by exists msg.
Qed.

(** *** The charts of a run *)

Lemma lookup_setitem_ne df c s k : c ≠ k -> setitem df c s !! k = df !! k.
Proof. intros H. unfold lookup, dataframe_lookup. simpl. by apply lookup_insert_ne. Qed.

Lemma filter_ext_in {A} (P Q : A -> Prop)
    `{!forall x, Decision (P x), !forall x, Decision (Q x)} (l : list A) :
  (forall x, x ∈ l -> P x <-> Q x) -> filter P l = filter Q l.
Proof.
  induction l as [|x l IH]; intros Hext; [done|].
  rewrite !filter_cons. rewrite IH by (intros y Hy; apply Hext; by right).
  assert (P x <-> Q x) as Hx by (apply Hext; by left).
  destruct (decide (P x)), (decide (Q x)); tauto.
Qed.

(** The cleaning loop returns; it prints one warning for each listed column
    that the table does not have, and adds the cleaned columns of the
    others. *)
Lemma clean_columns_run cols df w :
  (forall c x, c ∈ cols -> x ∈ cols -> c ≠ cleaned_name x) ->
  exists df',
    clean_columns cols df w
    = (Ok df',
       {| stdout := stdout w ++ (warning <$> filter (fun c => df !! c = None) cols);
          files := files w |}) /\
    forall k,
      (forall x, x ∈ cols -> is_Some (df !! x) -> k ≠ cleaned_name x) ->
      df' !! k = df !! k.
Proof.
  revert df w. induction cols as [|col rest IH]; intros df w H.
  { exists df. split; [|done]. cbn. destruct w. by rewrite app_nil_r. }
  assert (forall c x, c ∈ rest -> x ∈ rest -> c ≠ cleaned_name x) as Hrest
    by (intros c x ??; apply H; by right).
  cbn [clean_columns]. destruct (df !! col) as [series|] eqn:Hcol.
  - destruct (clean_total series) as (cleaned & Hclean & _).
    destruct (IH (setitem df (cleaned_name col) cleaned) w Hrest)
      as (df' & Hrun & Hkeep).
    assert (forall x, x ∈ rest ->
              setitem df (cleaned_name col) cleaned !! x = df !! x) as Hsame.
    { intros x Hx. apply lookup_setitem_ne. intros Heq.
      apply (H x col); [by right|by left|done]. }
    rewrite (filter_ext_in _ (fun c => df !! c = None) rest) in Hrun
      by (intros x Hx; by rewrite Hsame).
    exists df'. split.
    + rewrite filter_cons_False by congruence.
      unfold mbind, io_bind, lift. rewrite Hclean. cbn. by rewrite Hrun.
    + intros k Hk. rewrite Hkeep.
      * apply lookup_setitem_ne. intros Heq. apply (Hk col); [by left|by eexists|done].
      * intros x Hx Hsome. rewrite Hsame in Hsome by done. apply Hk; [by right|done].
  - destruct (IH df {| stdout := stdout w ++ [warning col]; files := files w |} Hrest)
      as (df' & Hrun & Hkeep).
    exists df'. split.
    + rewrite filter_cons_True by done.
      unfold mbind, io_bind, print. cbn. rewrite Hrun. cbn.
      by rewrite <- app_assoc.
    + intros k Hk. apply Hkeep. intros x Hx. apply Hk. by right.
Qed.

Lemma chain_cons_Ok name calls charts final w :
  chain (save_chart <$> (name, Ok calls) :: charts) final w
  = chain (save_chart <$> charts) final
      {| stdout := stdout w; files := files w ++ [(name, calls)] |}.
Proof. reflexivity. Qed.

Lemma chain_cons_Raise name e charts final w :
  chain (save_chart <$> (name, Raise e) :: charts) final w = (Raise e, w).
Proof. reflexivity. Qed.

(** A run of charts stops at the first one that raises; the charts before
    it are written. *)
Lemma chain_raises charts final w :
  Exists (fun c => exists e, c.2 = Raise e) charts ->
  exists e,
    chain (save_chart <$> charts) final w
    = (Raise e, {| stdout := stdout w; files := files w ++ saved charts |}).
Proof.
  intros H. revert w.
  induction charts as [|[name [calls|e]] charts IH]; intros w.
  - inversion H.
  - apply Exists_cons in H as [[e He]|H]; [discriminate|].
    destruct (IH H {| stdout := stdout w; files := files w ++ [(name, calls)] |})
      as [e He].
    exists e. rewrite chain_cons_Ok, He. cbn. by rewrite <- app_assoc.
  - exists e. rewrite chain_cons_Raise. cbn. destruct w. by rewrite app_nil_r.
Qed.

Lemma saved_Ok charts name calls :
  (name, calls) ∈ saved charts -> (name, Ok calls) ∈ charts.
Proof.
  induction charts as [|[n [c|e]] charts IH]; cbn; [by intros ?%elem_of_nil| |by intros ?%elem_of_nil].
  intros [[= -> ->]|Hin]%elem_of_cons; [by left|]. right. by apply IH.
Qed.

Lemma saved_length charts :
  Exists (fun c => exists e, c.2 = Raise e) charts ->
  (length (saved charts) < length charts)%nat.
Proof.
  induction charts as [|[n [c|e]] charts IH]; cbn; intros H.
  - inversion H.
  - apply Exists_cons in H as [[e He]|H]; [discriminate|].
    specialize (IH H). lia.
  - lia.
Qed.

Lemma names_functional {A} (l : list (string * A)) n a b :
  NoDup l.*1 -> (n, a) ∈ l -> (n, b) ∈ l -> a = b.
Proof.
  induction l as [|[n' a'] l IH]; cbn; intros Hnd Ha Hb.
  { by apply elem_of_nil in Ha. }
  apply NoDup_cons in Hnd as [Hn Hnd].
  apply elem_of_cons in Ha as [Ha|Ha]; apply elem_of_cons in Hb as [Hb|Hb].
  - congruence.
  - exfalso. apply Hn. apply list_elem_of_fmap. exists (n, b).
    split; [|done]. cbn. congruence.
  - exfalso. apply Hn. apply list_elem_of_fmap. exists (n, a).
    split; [|done]. cbn. congruence.
  - by apply IH.
Qed.

(** Each chart asks [dropna] for the columns listed in [chart_columns], and
    raises when one of them is absent. *)
Lemma visualizations_need_columns df :
  Forall2 (fun cols chart =>
             chart.1 = cols.1 /\
             forall c, c ∈ cols.2 -> df !! c = None -> exists e, chart.2 = Raise e)
    chart_columns (visualizations df).
Proof.
  unfold chart_columns, visualizations.
  repeat (constructor; [split; [reflexivity|intros c Hc Hnone; cbn in Hc |- *]|]);
    [..|constructor].
  - destruct (dropna_missing_column _ df c Hc Hnone) as [msg ->]. by eexists.
  - destruct (dropna_missing_column _ df c Hc Hnone) as [msg ->]. by eexists.
  - destruct (dropna_missing_column _ df c Hc Hnone) as [msg ->]. by eexists.
  - destruct (hybrid_plot_missing_column df _ _
                "Distribution of Basic Services Fee by Ownership Type"
                "Basic Services Fee ($)" c Hc Hnone) as [msg ->]. by eexists.
  - destruct (hybrid_plot_missing_column df _ _
                "Distribution of Direct Cremation Price by Ownership Type"
                "Direct Cremation Lowest Price ($)" c Hc Hnone) as [msg ->].
    by eexists.
  - destruct (hybrid_plot_missing_column df _ _
                "Distribution of Immediate Burial Price by Ownership Type"
                "Immediate Burial Lowest Price ($)" c Hc Hnone) as [msg ->].
    by eexists.
  - destruct (dropna_missing_column _ df c Hc Hnone) as [msg ->]. by eexists.
  - destruct (dropna_missing_column _ df c Hc Hnone) as [msg ->]. by eexists.
Qed.

(** The names of the cleaned columns: none is a column to clean, no two are
    the same, and each is needed by some chart. *)
Lemma cleaned_names_fresh c x :
  c ∈ cols_to_clean -> x ∈ cols_to_clean -> c ≠ cleaned_name x.
Proof.
  assert (Forall (fun c => Forall (fun x => c ≠ cleaned_name x) cols_to_clean)
            cols_to_clean) as H
    by by_computation.
  intros Hc Hx. rewrite Forall_forall in H. specialize (H c Hc).
  rewrite Forall_forall in H. by apply H.
Qed.

Lemma cleaned_names_inj c x :
  c ∈ cols_to_clean -> x ∈ cols_to_clean ->
  cleaned_name c = cleaned_name x -> c = x.
Proof.
  assert (Forall (fun c =>
            Forall (fun x => cleaned_name c = cleaned_name x -> c = x)
              cols_to_clean) cols_to_clean) as H
    by by_computation.
  intros Hc Hx. rewrite Forall_forall in H. specialize (H c Hc).
  rewrite Forall_forall in H. by apply H.
Qed.

Lemma cleaned_names_charted col :
  col ∈ cols_to_clean ->
  Exists (fun cc => cleaned_name col ∈ cc.2) chart_columns.
Proof.
  assert (Forall (fun col => Exists (fun cc => cleaned_name col ∈ cc.2) chart_columns)
            cols_to_clean) as H
    by by_computation.
  intros Hc. rewrite Forall_forall in H. by apply H.
Qed.

(** The handler prints one line, which is not the completion message. *)
Lemma handler_prints e w :
  exists line,
    handler e w
    = (Ok (), {| stdout := stdout w ++ [line]; files := files w |}) /\
    line ≠ completed.
Proof. destruct e; eexists; (split; [reflexivity|discriminate]). Qed.

(** X7: whatever the file holds otherwise, when a column to clean is absent
    (and the file has no column of its cleaned name) the run prints its
    warning, never reaches the completion message, writes fewer than eight
    images, and writes none of the images that need the cleaned column. *)
Lemma main_missing_column df col :
  col ∈ cols_to_clean ->
  df !! col = None ->
  df !! cleaned_name col = None ->
  exists w,
    main (fun _ => Ok df) fresh = (Ok (), w) /\
    warning col ∈ stdout w /\
    (completed ∉ stdout w) /\
    (length (files w) < 8)%nat /\
    (forall name subset,
       (name, subset) ∈ chart_columns ->
       cleaned_name col ∈ subset ->
       name ∉ (files w).*1).
Proof.
  intros Hcol Hnone Hnone'.
  set (df0 := strip_object_columns df).
  assert (forall k, df0 !! k = strip_column <$> df !! k) as Hdf0
    by (intros k; apply lookup_fmap).
  destruct (clean_columns_run cols_to_clean df0 fresh cleaned_names_fresh)
    as (df1 & Hrun & Hkeep).
  assert (df1 !! cleaned_name col = None) as Hdf1.
  { rewrite Hkeep; [by rewrite Hdf0, Hnone'|].
    intros x Hx [s' Hs'] Heq.
    assert (col = x) as <- by by apply cleaned_names_inj.
    rewrite Hdf0, Hnone in Hs'. discriminate. }
  assert (exists name subset,
            (name, subset) ∈ chart_columns /\ cleaned_name col ∈ subset)
    as (name0 & subset0 & Hin0 & Hsub0).
  { apply cleaned_names_charted, Exists_exists in Hcol as ([n l] & ? & ?).
    by exists n, l. }
  pose proof (visualizations_need_columns df1) as Hneed.
  assert (forall name subset,
            (name, subset) ∈ chart_columns -> cleaned_name col ∈ subset ->
            exists e, (name, Raise e) ∈ visualizations df1) as Hraise.
  { intros name subset Hin Hsub.
    apply list_elem_of_lookup in Hin as [i Hi].
    destruct (Forall2_lookup_l _ _ _ _ _ Hneed Hi) as ([n r] & Hv & Hn & Hr).
    cbn in Hn, Hr. subst n.
    destruct (Hr _ Hsub Hdf1) as [e ->].
    exists e. by eapply list_elem_of_lookup_2. }
  assert (Exists (fun c => exists e, c.2 = Raise e) (visualizations df1)) as Hex.
  { destruct (Hraise _ _ Hin0 Hsub0) as [e He].
    apply Exists_exists. exists (name0, Raise e). split; [done|by exists e]. }
  destruct (chain_raises (visualizations df1) (print completed)
              {| stdout := stdout fresh
                           ++ (warning <$> filter (fun c => df0 !! c = None) cols_to_clean);
                 files := files fresh |} Hex) as [e He].
  set (w1 := {| stdout := stdout fresh
                           ++ (warning <$> filter (fun c => df0 !! c = None) cols_to_clean);
                files := files fresh ++ saved (visualizations df1) |}) in He.
  destruct (handler_prints e w1) as (line & Hhandler & Hline).
  eexists. split.
  { unfold main, try_except.
    change (mbind _ (lift (Ok df)) fresh)
      with (mbind (fun df2 =>
                     chain (save_chart <$> visualizations df2) (print completed))
              (clean_columns cols_to_clean df0) fresh).
    unfold mbind at 1, io_bind at 1. rewrite Hrun, He. exact Hhandler. }
  cbn [stdout files w1].
  split_and!.
  - rewrite app_nil_l. apply elem_of_app; left.
    apply list_elem_of_fmap. exists col. split; [done|].
    apply list_elem_of_filter. split; [|done]. by rewrite Hdf0, Hnone.
  - intros Hin. rewrite app_nil_l in Hin.
    apply elem_of_app in Hin as [Hin|Hin%list_elem_of_singleton].
    + apply list_elem_of_fmap in Hin as (c & Hc & _). discriminate.
    + congruence.
  - rewrite app_nil_l. by apply saved_length in Hex.
  - intros name subset Hin Hsub Hsaved. rewrite app_nil_l in Hsaved.
    destruct (Hraise _ _ Hin Hsub) as [e' He'].
    apply list_elem_of_fmap in Hsaved as ([n calls] & Hn & Hsaved).
    cbn in Hn. subst n. apply saved_Ok in Hsaved.
    assert (Ok calls = Raise e') as Habs; [|discriminate].
    apply (names_functional (visualizations df1) name); [|done..].
    cbn. by_computation.
Qed.

(** C4 (the run the claim describes): without the [Latitude] column the
    script prints the warning, then the first chart raises [KeyError] on the
    absent [Latitude_cleaned]; the run ends in the catch-all handler and no
    image is written. *)
Theorem main_missing_column_aborts :
  main (fun _ => Ok Sample.survey_without_latitude) fresh
  = (Ok (),
     {| stdout :=
          ["Warning: Column 'Latitude' not found in the CSV file.";
           "An unexpected error occurred: ['Latitude_cleaned']"];
        files := [] |}).
Proof. vm_compute. reflexivity. Qed.

(** With every column present the same file gives the eight images. *)
Example main_complete_file :
  let '(r, w) := main (fun _ => Ok Sample.survey) fresh in
  r = Ok () /\
  stdout w = ["Plots have been saved to the script's directory as PNG files."] /\
  (files w).*1
  = ["geographic_distribution.png"; "cremation_price_distribution.png";
     "immediate_burial_price_distribution.png";
     "basic_services_fee_hybrid_plot.png"; "direct_cremation_hybrid_plot.png";
     "immediate_burial_hybrid_plot.png"; "cremation_percentage_change.png";
     "fee_vs_cremation_price.png"].
Proof. vm_compute. done. Qed.

Lemma main_missing_column_witness :
  exists w,
    main (fun _ => Ok Sample.survey_without_latitude) fresh = (Ok (), w) /\
    warning "Latitude" ∈ stdout w /\
    (completed ∉ stdout w) /\
    (length (files w) < 8)%nat.
Proof.
  destruct (main_missing_column Sample.survey_without_latitude "Latitude")
    as (w & Hmain & Hwarn & Hdone & Hfiles & _).
  - by_computation.
  - vm_compute. reflexivity.
  - vm_compute. reflexivity.
  - exists w. split_and!; assumption.
Defined.

(** *** The cleaning loop and the outcomes of a run *)

Lemma len_strip_column s : len (strip_column s) = len s.
Proof. destruct s; cbn; [done..|]. by rewrite length_fmap. Qed.

Lemma lookup_strip_object_columns df c :
  strip_object_columns df !! c = strip_column <$> df !! c.
Proof. apply lookup_fmap. Qed.

Lemma well_formed_strip df :
  well_formed df -> well_formed (strip_object_columns df).
Proof.
  intros Hwf c s Hs. cbn in *.
  apply lookup_fmap_Some in Hs as (s0 & <- & Hs0).
  rewrite len_strip_column. by apply (Hwf c).
Qed.

Lemma clean_len series out :
  clean_and_convert_to_numeric series = Ok out -> len out = len series.
Proof.
  destruct series as [zs|zs|fs|xs]; [by intros [= <-]..|].
  intros E. destruct (clean_object xs) as (out' & E' & _ & Hs).
  assert (out' = out) as -> by congruence.
  rewrite <- len_tolist. symmetry. by eapply Forall2_length.
Qed.

Lemma lookup_setitem df c s : setitem df c s !! c = Some s.
Proof. unfold lookup, dataframe_lookup. simpl. by apply lookup_insert_eq. Qed.

(** The cleaning loop adds the cleaned column of each listed column that the
    table has. *)
Lemma clean_columns_adds cols df w df' w' :
  NoDup cols ->
  (forall c x, c ∈ cols -> x ∈ cols -> c ≠ cleaned_name x) ->
  (forall c x, c ∈ cols -> x ∈ cols -> cleaned_name c = cleaned_name x -> c = x) ->
  clean_columns cols df w = (Ok df', w') ->
  nrows df' = nrows df /\
  forall col s, col ∈ cols -> df !! col = Some s ->
    exists cleaned,
      clean_and_convert_to_numeric s = Ok cleaned /\
      df' !! cleaned_name col = Some cleaned.
Proof.
  revert df w. induction cols as [|col rest IH]; intros df w Hnd Hfresh Hinj Hrun.
  { cbn in Hrun. injection Hrun as <- _. split; [done|].
    by intros col s ?%elem_of_nil. }
  apply NoDup_cons in Hnd as [Hcol Hnd].
  assert (forall c x, c ∈ rest -> x ∈ rest -> c ≠ cleaned_name x) as Hfresh'
    by (intros c x ??; apply Hfresh; by right).
  assert (forall c x, c ∈ rest -> x ∈ rest -> cleaned_name c = cleaned_name x -> c = x)
    as Hinj' by (intros c x ??; apply Hinj; by right).
  cbn [clean_columns] in Hrun. destruct (df !! col) as [series|] eqn:Hseries.
  - destruct (clean_total series) as (cleaned & Hclean & _).
    set (df1 := setitem df (cleaned_name col) cleaned).
    assert (clean_columns rest df1 w = (Ok df', w')) as Hrest.
    { revert Hrun. unfold mbind, io_bind, lift. rewrite Hclean. by cbn. }
    assert (forall x, x ∈ rest -> df1 !! x = df !! x) as Hsame.
    { intros x Hx. apply lookup_setitem_ne. intros Heq.
      apply (Hfresh x col); [by right|by left|done]. }
    destruct (IH df1 w Hnd Hfresh' Hinj' Hrest) as [Hrows Hadds].
    split; [done|]. intros x s [->|Hx]%elem_of_cons Hs.
    + assert (s = series) as -> by congruence.
      exists cleaned. split; [done|].
      destruct (clean_columns_run rest df1 w Hfresh') as (df'' & Hrun' & Hkeep).
      assert (df'' = df') as -> by congruence.
      rewrite Hkeep; [apply lookup_setitem|].
      intros x Hx _ Heq. apply Hcol.
      rewrite (Hinj col x); [done|by left|by right|done].
    + apply Hadds; [done|]. by rewrite Hsame.
  - assert (clean_columns rest df
              {| stdout := stdout w ++ [warning col]; files := files w |}
            = (Ok df', w')) as Hrest.
    { revert Hrun. unfold mbind, io_bind, print. by cbn. }
    destruct (IH df _ Hnd Hfresh' Hinj' Hrest) as [Hrows Hadds].
    split; [done|]. intros x s [->|Hx]%elem_of_cons Hs; [congruence|].
    by apply Hadds.
Qed.

(** What the cleaning loop returns for a list of columns whose cleaned names
    are fresh and distinct. *)
Lemma clean_columns_table cols df w :
  NoDup cols ->
  (forall c x, c ∈ cols -> x ∈ cols -> c ≠ cleaned_name x) ->
  (forall c x, c ∈ cols -> x ∈ cols -> cleaned_name c = cleaned_name x -> c = x) ->
  exists df',
    clean_columns cols df w
    = (Ok df',
       {| stdout := stdout w ++ (warning <$> filter (fun c => df !! c = None) cols);
          files := files w |}) /\
    nrows df' = nrows df /\
    (forall col s, col ∈ cols -> df !! col = Some s ->
       exists cleaned,
         clean_and_convert_to_numeric s = Ok cleaned /\
         df' !! cleaned_name col = Some cleaned) /\
    (forall k,
       (forall col, col ∈ cols -> is_Some (df !! col) -> k ≠ cleaned_name col) ->
       df' !! k = df !! k) /\
    (well_formed df -> well_formed df').
Proof.
  intros Hnd Hfresh Hinj.
  destruct (clean_columns_run cols df w Hfresh) as (df' & Hrun & Hkeep).
  destruct (clean_columns_adds _ _ _ _ _ Hnd Hfresh Hinj Hrun) as [Hrows Hadds].
  exists df'. split_and!; [done..|].
  intros Hwf k s' Hs'. change (len s' = nrows df'). rewrite Hrows.
  destruct (decide (Exists (fun col => is_Some (df !! col) /\ k = cleaned_name col)
                      cols)) as [Hk|Hk].
  - apply Exists_exists in Hk as (col & Hcol & [s Hs] & ->).
    destruct (Hadds col s Hcol Hs) as (cleaned & Hclean & Hcleaned).
    assert (s' = cleaned) as ->.
    { unfold lookup, dataframe_lookup in Hcleaned. congruence. }
    rewrite (clean_len _ _ Hclean). by apply (Hwf col).
  - apply (Hwf k). change (df !! k = Some s').
    rewrite <- Hkeep; [done|].
    intros col Hcol Hsome ->. apply Hk, Exists_exists. by exists col.
Qed.

Lemma cols_to_clean_NoDup : NoDup cols_to_clean.
Proof. by_computation. Qed.

(** X1: the cleaning loop of [main] returns, whatever the table: it prints
    one warning for each listed column that is absent, in the order of the
    list, adds for each listed column that is present its cleaned column
    under the name [<col>_cleaned], changes no other column, and keeps every
    column as long as the table. *)
Theorem cleaning_loop df w :
  exists df',
    clean_columns cols_to_clean df w
    = (Ok df',
       {| stdout := stdout w
                    ++ (warning <$> filter (fun c => df !! c = None) cols_to_clean);
          files := files w |}) /\
    nrows df' = nrows df /\
    (forall col s, col ∈ cols_to_clean -> df !! col = Some s ->
       exists cleaned,
         clean_and_convert_to_numeric s = Ok cleaned /\
         df' !! cleaned_name col = Some cleaned) /\
    (forall k,
       (forall col, col ∈ cols_to_clean -> is_Some (df !! col) ->
                    k ≠ cleaned_name col) ->
       df' !! k = df !! k) /\
    (well_formed df -> well_formed df').
Proof.
  apply clean_columns_table;
    [apply cols_to_clean_NoDup|apply cleaned_names_fresh|apply cleaned_names_inj].
Qed.

(** *** Runs of [main] *)

Lemma chain_saved charts final w :
  Forall (fun c => exists calls, c.2 = Ok calls) charts ->
  chain (save_chart <$> charts) final w
  = final {| stdout := stdout w; files := files w ++ saved charts |} /\
  (saved charts).*1 = charts.*1.
Proof.
  intros H. revert w. induction H as [|[name r] charts [calls Hr] _ IH]; intros w.
  - cbn. destruct w. by rewrite app_nil_r.
  - cbn in Hr. subst r. rewrite chain_cons_Ok.
    destruct (IH {| stdout := stdout w; files := files w ++ [(name, calls)] |})
      as [-> Hnames].
    split; [|cbn; by rewrite Hnames]. cbn. by rewrite <- app_assoc.
Qed.

Lemma charts_dichotomy (charts : list (string * result (list call))) :
  Forall (fun c => exists calls, c.2 = Ok calls) charts
  \/ Exists (fun c => exists e, c.2 = Raise e) charts.
Proof.
  induction charts as [|[name [calls|e]] charts [IH|IH]].
  - left. constructor.
  - left. constructor; [by exists calls|done].
  - right. by apply Exists_cons_tl.
  - right. apply Exists_cons_hd. by exists e.
  - right. apply Exists_cons_hd. by exists e.
Qed.

Lemma saved_prefix charts : (saved charts).*1 `prefix_of` charts.*1.
Proof.
  induction charts as [|[name [calls|e]] charts IH]; cbn.
  - done.
  - by apply prefix_cons.
  - apply prefix_nil.
Qed.

Lemma visualizations_names df : (visualizations df).*1 = chart_columns.*1.
Proof. reflexivity. Qed.

(** [main] as a cleaning loop followed by the eight charts. *)
Lemma main_Ok df w :
  main (fun _ => Ok df) w
  = try_except
      (df1 ← clean_columns cols_to_clean (strip_object_columns df);
       chain (save_chart <$> visualizations df1) (print completed))
      handler w.
Proof. reflexivity. Qed.

Lemma main_read_Raise read_csv e w :
  read_csv "oct10-fh-data.csv" = Raise e -> main read_csv w = handler e w.
Proof.
  intros H. unfold main, try_except. unfold mbind at 1, io_bind at 1, lift.
  by rewrite H.
Qed.

Lemma main_read_Ok read_csv df w :
  read_csv "oct10-fh-data.csv" = Ok df ->
  main read_csv w = main (fun _ => Ok df) w.
Proof.
  intros H. unfold main, try_except. unfold mbind at 1 4, io_bind at 1 4, lift.
  by rewrite H.
Qed.

Lemma warning_not_completed c : warning c ≠ completed.
Proof. discriminate. Qed.

(** The run on a loaded table: the warnings of the cleaning loop, then the
    charts up to the first that raises. *)
Lemma main_run df w :
  exists df1,
    let warnings :=
      warning <$> filter (fun c => strip_object_columns df !! c = None)
                    cols_to_clean in
    clean_columns cols_to_clean (strip_object_columns df) w
    = (Ok df1, {| stdout := stdout w ++ warnings; files := files w |}) /\
    ((Forall (fun c => exists calls, c.2 = Ok calls) (visualizations df1) /\
      main (fun _ => Ok df) w
      = (Ok (), {| stdout := stdout w ++ warnings ++ [completed];
                   files := files w ++ saved (visualizations df1) |}))
     \/
     (Exists (fun c => exists e, c.2 = Raise e) (visualizations df1) /\
      exists line,
        line ≠ completed /\
        main (fun _ => Ok df) w
        = (Ok (), {| stdout := stdout w ++ warnings ++ [line];
                     files := files w ++ saved (visualizations df1) |}))).
Proof.
  destruct (clean_columns_run cols_to_clean (strip_object_columns df) w
              cleaned_names_fresh) as (df1 & Hrun & _).
  exists df1. cbn zeta. split; [done|].
  set (w1 := {| stdout := _ ++ _ |}) in Hrun.
  assert (main (fun _ => Ok df) w
          = match chain (save_chart <$> visualizations df1) (print completed) w1 with
            | (Ok (), w') => (Ok (), w')
            | (Raise e, w') => handler e w'
            end) as ->.
  { rewrite main_Ok. unfold try_except. unfold mbind at 1, io_bind at 1.
    by rewrite Hrun. }
  destruct (charts_dichotomy (visualizations df1)) as [Hall|Hex].
  - left. split; [done|].
    destruct (chain_saved _ (print completed) w1 Hall) as [-> _].
    cbn. by rewrite <- app_assoc.
  - right. split; [done|].
    destruct (chain_raises _ (print completed) w1 Hex) as [e ->].
    destruct (handler_prints e
                {| stdout := stdout w1;
                   files := files w1 ++ saved (visualizations df1) |})
      as (line & -> & Hline).
    exists line. split; [done|]. cbn. by rewrite <- app_assoc.
Qed.

(** X2: every run of [main] ends normally, whatever [read_csv] does; the
    images it writes are the first charts of the eight, in order, and the
    completion message is printed exactly when all eight were written. *)
Theorem main_outcome (read_csv : string -> result DataFrame) :
  exists w,
    main read_csv fresh = (Ok (), w) /\
    (files w).*1 `prefix_of` chart_columns.*1 /\
    (completed ∈ stdout w <-> (files w).*1 = chart_columns.*1).
Proof.
  destruct (read_csv "oct10-fh-data.csv") as [df|e] eqn:Hread.
  - rewrite (main_read_Ok _ _ _ Hread).
    destruct (main_run df fresh) as (df1 & _ & [[Hall ->]|[Hex (line & Hline & ->)]]);
      eexists; (split; [reflexivity|]); cbn [stdout files fresh app].
    + destruct (chain_saved _ (print completed) fresh Hall) as [_ Hnames].
      rewrite Hnames, visualizations_names. split; [done|]. split; [done|].
      intros _. apply elem_of_app. right. by left.
    + pose proof (saved_prefix (visualizations df1)) as Hpre.
      rewrite visualizations_names in Hpre. split; [done|].
      split.
      * intros [Hin|Hin%list_elem_of_singleton]%elem_of_app; [|congruence].
        apply list_elem_of_fmap in Hin as (c & Hc & _).
        by destruct (warning_not_completed c).
      * intros Hnames. apply saved_length in Hex.
        apply (f_equal length) in Hnames. rewrite !length_fmap in Hnames.
        rewrite <- (length_fmap fst (visualizations df1)),
          visualizations_names, length_fmap in Hex. lia.
  - rewrite (main_read_Raise _ _ _ Hread).
    destruct (handler_prints e fresh) as (line & -> & Hline).
    eexists. split; [reflexivity|]. cbn. split; [apply prefix_nil|].
    split; [|discriminate].
    intros ?%list_elem_of_singleton. congruence.
Qed.

(** X3: when [read_csv] raises, nothing is drawn: the run prints one line,
    the not-found message for [FileNotFoundError] and the text of the error
    after a fixed prefix for any other exception, and ends normally. *)
Theorem main_read_error (read_csv : string -> result DataFrame) e w :
  read_csv "oct10-fh-data.csv" = Raise e ->
  exists line,
    main read_csv w
    = (Ok (), {| stdout := stdout w ++ [line]; files := files w |}) /\
    (forall msg, e = FileNotFoundError msg ->
       line = "Error: 'oct10-fh-data.csv' not found. Please ensure it's in the same directory.") /\
    ((forall msg, e ≠ FileNotFoundError msg) ->
       line = "An unexpected error occurred: " +:+ exn_str e).
Proof.
  intros Hread. rewrite (main_read_Raise _ _ _ Hread).
  destruct e; eexists; (split; [reflexivity|]); split; try done;
    intros H; by destruct (H msg).
Qed.

Lemma main_read_error_witness :
  exists line,
    main (fun _ => Raise (FileNotFoundError "No such file or directory")) fresh
    = (Ok (), {| stdout := [line]; files := [] |}) /\
    line = "Error: 'oct10-fh-data.csv' not found. Please ensure it's in the same directory.".
Proof.
  destruct (main_read_error
              (fun _ => Raise (FileNotFoundError "No such file or directory"))
              (FileNotFoundError "No such file or directory") fresh eq_refl)
    as (line & Hmain & Hline & _).
  exists line. split; [exact Hmain|]. by eapply Hline.
Defined.

Lemma filter_none {A} (P : A -> Prop) `{!forall x, Decision (P x)} (l : list A) :
  Forall (fun x => ~ P x) l -> filter P l = [].
Proof.
  induction 1 as [|x l Hx _ IH]; [done|]. by rewrite filter_cons_False.
Qed.

(** The table the charts are drawn from, when the file has every column to
    clean: the cleaned columns are there and numeric, and the other columns
    are those of the sanitised file. *)
Lemma cleaned_table df w :
  Forall (fun col => is_Some (df !! col)) cols_to_clean ->
  exists df1,
    clean_columns cols_to_clean (strip_object_columns df) w
    = (Ok df1, {| stdout := stdout w ++ []; files := files w |}) /\
    (well_formed df -> well_formed df1) /\
    (forall col, col ∈ cols_to_clean ->
       exists cleaned,
         df1 !! cleaned_name col = Some cleaned /\
         is_numeric_dtype cleaned = true) /\
    (forall k, k ∉ cleaned_name <$> cols_to_clean ->
       df1 !! k = strip_column <$> df !! k).
Proof.
  intros Hcols. rewrite Forall_forall in Hcols.
  destruct (clean_columns_table cols_to_clean (strip_object_columns df) w
              cols_to_clean_NoDup cleaned_names_fresh cleaned_names_inj)
    as (df1 & Hrun & _ & Hadds & Hkeep & Hwf).
  assert (filter (fun c => strip_object_columns df !! c = None) cols_to_clean = [])
    as Hnone.
  { apply filter_none, Forall_forall. intros c Hc.
    rewrite lookup_strip_object_columns. destruct (Hcols c Hc) as [s ->]. done. }
  rewrite Hnone in Hrun. exists df1. split_and!; [done|..].
  - intros ?. by apply Hwf, well_formed_strip.
  - intros col Hcol. destruct (Hcols col Hcol) as [s Hs].
    destruct (Hadds col (strip_column s) Hcol) as (cleaned & Hclean & Hcleaned).
    { by rewrite lookup_strip_object_columns, Hs. }
    exists cleaned. split; [done|].
    destruct (clean_total (strip_column s)) as (out & E & Hn). congruence.
  - intros k Hk. rewrite Hkeep; [apply lookup_strip_object_columns|].
    intros col Hcol _ ->. apply Hk, list_elem_of_fmap. by exists col.
Qed.

Lemma dropna_returns subset df :
  Forall (fun c => is_Some (df !! c)) subset ->
  exists plot_df, dropna subset df = Ok plot_df.
Proof. intros H. rewrite (dropna_is_Ok _ _ H). by eexists. Qed.

(** X4: a file with every column to clean and a text [Ownership] column
    gives the eight images, in order, and the completion message alone. *)
Theorem main_complete df cells w :
  well_formed df ->
  Forall (fun col => is_Some (df !! col)) cols_to_clean ->
  df !! "Ownership" = Some (Object cells) ->
  exists charts,
    main (fun _ => Ok df) w
    = (Ok (), {| stdout := stdout w ++ [completed];
                 files := files w ++ charts |}) /\
    charts.*1 = chart_columns.*1.
Proof.
  intros Hwf0 Hcols Hown.
  destruct (cleaned_table df w Hcols) as (df1 & Hrun & Hwf & Hcleaned & Hkeep).
  specialize (Hwf Hwf0).
  assert (exists cells1, df1 !! "Ownership" = Some (Object cells1)) as [cells1 Hown1].
  { rewrite Hkeep by by_computation. rewrite Hown. by eexists. }
  assert (forall col, col ∈ cols_to_clean -> is_Some (df1 !! cleaned_name col))
    as Hsome.
  { intros col Hcol. destruct (Hcleaned col Hcol) as (? & ? & _). by eexists. }
  assert (forall col title ylabel, col ∈ cols_to_clean ->
            exists calls,
              create_hybrid_plot df1 (cleaned_name col) "Ownership" title ylabel
              = Ok calls) as Hhybrid.
  { intros col title ylabel Hcol.
    destruct (Hcleaned col Hcol) as (cleaned & Hc & Hn).
    by apply (hybrid_plot_returns df1 _ _ title ylabel cleaned cells1). }
  assert (Forall (fun c => exists calls, c.2 = Ok calls) (visualizations df1))
    as Hall.
  { unfold visualizations. repeat constructor; cbn [snd visualization1
      visualization2 visualization3 visualization4 visualization5
      visualization6 visualization7 visualization8].
    - destruct (dropna_returns ["Latitude_cleaned"; "Longitude_cleaned"; "Ownership"] df1)
        as [plot_df ->]; [|by eexists].
      repeat constructor;
        [apply (Hsome "Latitude")|apply (Hsome "Longitude")|by eexists];
        by_computation.
    - destruct (dropna_returns ["DirectCremationLowestPrice_cleaned"] df1)
        as [plot_df ->]; [|by eexists].
      repeat constructor. apply (Hsome "DirectCremationLowestPrice"). by_computation.
    - destruct (dropna_returns ["ImmediateBurialLowestPrice_cleaned"] df1)
        as [plot_df ->]; [|by eexists].
      repeat constructor. apply (Hsome "ImmediateBurialLowestPrice"). by_computation.
    - apply (Hhybrid "BasicServicesFee"). by_computation.
    - apply (Hhybrid "DirectCremationLowestPrice"). by_computation.
    - apply (Hhybrid "ImmediateBurialLowestPrice"). by_computation.
    - destruct (dropna_returns ["DirectCremation_Pct_Change_cleaned"] df1)
        as [plot_df ->]; [|by eexists].
      repeat constructor. apply (Hsome "DirectCremation_Pct_Change"). by_computation.
    - destruct (dropna_returns ["BasicServicesFee_cleaned";
                                "DirectCremationLowestPrice_cleaned"; "Ownership"] df1)
        as [plot_df ->]; [|by eexists].
      repeat constructor;
        [apply (Hsome "BasicServicesFee")|apply (Hsome "DirectCremationLowestPrice")
        |by eexists]; by_computation. }
  destruct (main_run df w) as (df1' & Hrun' & Hcases). cbn zeta in Hrun', Hcases.
  assert (df1' = df1) as -> by congruence.
  assert (filter (fun c => strip_object_columns df !! c = None) cols_to_clean = [])
    as Hnone.
  { rewrite Hrun in Hrun'. injection Hrun' as Hw.
    apply app_inv_head in Hw. symmetry in Hw. by apply fmap_nil_inv in Hw. }
  rewrite Hnone in Hcases. cbn [fmap list_fmap app] in Hcases.
  destruct Hcases as [[_ ->]|[Hex _]].
  - exists (saved (visualizations df1)). split; [done|].
    destruct (chain_saved _ (print completed) w Hall) as [_ ->].
    apply visualizations_names.
  - exfalso. apply Exists_exists in Hex as (c & Hc & e & He).
    rewrite Forall_forall in Hall. destruct (Hall c Hc) as [calls Hcalls].
    congruence.
Qed.

Lemma main_complete_witness :
  exists charts,
    main (fun _ => Ok Sample.survey) fresh
    = (Ok (), {| stdout := [completed]; files := charts |}) /\
    charts.*1 = chart_columns.*1.
Proof.
  apply (main_complete Sample.survey
           [Text "Independent "; Text "SCI"; NA] fresh).
  - by_computation.
  - by_computation.
  - reflexivity.
Defined.

(** X5: a file with every column to clean but no [Ownership] column: the
    first chart raises, no image is written, and the run prints the one
    line of the catch-all handler. *)
Theorem main_missing_ownership df w :
  Forall (fun col => is_Some (df !! col)) cols_to_clean ->
  df !! "Ownership" = None ->
  main (fun _ => Ok df) w
  = (Ok (), {| stdout := stdout w ++ ["An unexpected error occurred: ['Ownership']"];
               files := files w |}).
Proof.
  intros Hcols Hown.
  destruct (cleaned_table df w Hcols) as (df1 & Hrun & _ & Hcleaned & Hkeep).
  assert (df1 !! "Ownership" = None) as Hown1.
  { rewrite Hkeep by by_computation. by rewrite Hown. }
  destruct (Hcleaned "Latitude") as (lat & Hlat & _); [by_computation|].
  destruct (Hcleaned "Longitude") as (lon & Hlon & _); [by_computation|].
  assert ((visualization1 df1).2 = Raise (KeyError "['Ownership']")) as Hv1.
  { unfold visualization1, dropna. cbn [snd].
    change "Latitude_cleaned" with (cleaned_name "Latitude").
    change "Longitude_cleaned" with (cleaned_name "Longitude").
    rewrite !filter_cons, filter_nil.
    rewrite decide_False by congruence.
    rewrite decide_False by congruence.
    rewrite decide_True by done. reflexivity. }
  rewrite main_Ok. unfold try_except. unfold mbind at 1, io_bind at 1.
  rewrite Hrun. unfold visualizations.
  destruct (visualization1 df1) as [name r]. cbn in Hv1. subst r.
  rewrite chain_cons_Raise. cbn. by rewrite app_nil_r.
Qed.

Lemma main_missing_ownership_witness :
  main (fun _ => Ok {| nrows := 3;
                       columns := delete "Ownership" (columns Sample.survey) |})
    fresh
  = (Ok (), {| stdout := ["An unexpected error occurred: ['Ownership']"];
               files := [] |}).
Proof.
  apply (main_missing_ownership
           {| nrows := 3; columns := delete "Ownership" (columns Sample.survey) |}
           fresh).
  - by_computation.
  - reflexivity.
Defined.

End Main.

(** ** Pipeline B *)

Section LobbyingTable.

Import Lobbying.

(** C8: the year of the annotated row is read as 2025 and falls outside the
    range; the table that is plotted has the years 2017 to 2024, and its row
    for 2024 holds 92166 for the funeral group and 78000 for the cemetery
    group. *)
Theorem lobbying_table :
  extract_4digits "2025(*Jan-June)" = Some "2025" /\
  df_agg =
    Ok [(PyInt 2017, [PyInt 14000; PyInt 12000]);
        (PyInt 2018, [PyInt 10000; PyInt 12000]);
        (PyInt 2019, [PyInt 14000; PyInt 12000]);
        (PyInt 2020, [PyInt 14428; PyInt 12000]);
        (PyInt 2021, [PyInt 28678; PyInt 12000]);
        (PyInt 2022, [PyInt 28000; PyInt 66750]);
        (PyInt 2023, [PyInt 58000; PyInt 76910]);
        (PyInt 2024, [PyInt 92166; PyInt 78000])].
Proof. split; vm_compute; reflexivity. Qed.

End LobbyingTable.
